(** * The acquisition-and-fusion pipeline of leighton-relationship

    A shallow embedding of [scraper.py] (entity discovery, capability
    filter, windowed retrieval, reshaping) and of
    [Scrapers/SynopticScraper.py] (nearest-source lookup and fusion merge),
    with the properties of the pipeline stated against it.

    Conventions of the embedding:
    - a timestamp (a parsed pandas datetime) is an integer of [Z];
    - a numeric cell is a rational of [Q], a missing cell (NaN, None) is
      [None]; the rounding of floating-point arithmetic is not modelled;
    - an exception raised inside a [try] block is the [Raised] outcome of
      the call that raises it, and the [except] branch is the match on it;
    - the network is an explicit argument: for each request, the list of
      what successive tries of that request meet. *)

From Stdlib Require Import ZArith QArith String Ascii.
From stdpp Require Import list strings sorting.

Local Open Scope Z_scope.

(** ** The HTTP layer: requests.Session, HTTPAdapter and urllib3's Retry *)

Module Http.

(** What one try of a request meets on the network. *)
Inductive attempt (B : Type) : Type :=
| Answer (status_code : Z) (body : B)
| ConnectionError
| ReadTimeout.
Arguments Answer {B} status_code body.
Arguments ConnectionError {B}.
Arguments ReadTimeout {B}.

(** What the caller of [session.get] or [requests.get] sees. *)
Inductive outcome (B : Type) : Type :=
| Response (status_code : Z) (body : B)
| Raised.
Arguments Response {B} status_code body.
Arguments Raised {B}.

(** The successive tries of one request; once the list is used up the
    host is taken to be unreachable. *)
Definition wire (B : Type) : Type := list (attempt B).

Definition next_attempt {B} (w : wire B) : attempt B * wire B :=
  match w with
  | [] => (ConnectionError, [])
  | a :: w' => (a, w')
  end.

(** The arguments of [urllib3.util.retry.Retry] that the program sets.
    [total], [read] and [connect] count the retries still allowed. *)
Record Retry : Type := {
  total : nat;
  backoff_factor : Z;
  status_forcelist : list Z;
  allowed_methods : list string;
  read : nat;
  connect : nat
}.

(** [HTTPAdapter.send] under a retry policy, for a GET request: a try that
    meets a status of the force list, a connection error or a read
    timeout is repeated while the counters allow it; when a counter is
    used up the exception reaches the caller.  Each failed try takes one
    from [total] and one from its own counter, and the policy is used up
    when a counter would fall below zero, so [total = n] stands for [n]
    retries after the first try.  The result is paired with the number of
    tries made.  The time slept between tries (the backoff) and answers
    that carry a Retry-After header are not part of the model. *)
Fixpoint urlopen {B} (idempotent : bool) (forcelist : list Z)
    (total connect read : nat) (w : wire B) {struct total} : outcome B * nat :=
  let '(a, rest) := next_attempt w in
  match a with
  | Answer code body =>
      if idempotent && bool_decide (code ∈ forcelist) then
        match total with
        | O => (Raised, 1%nat)
        | S total' =>
            let '(o, n) := urlopen idempotent forcelist total' connect read rest in
            (o, S n)
        end
      else (Response code body, 1%nat)
  | ConnectionError =>
      match total, connect with
      | S total', S connect' =>
          let '(o, n) := urlopen idempotent forcelist total' connect' read rest in
          (o, S n)
      | _, _ => (Raised, 1%nat)
      end
  | ReadTimeout =>
      match idempotent, total, read with
      | true, S total', S read' =>
          let '(o, n) := urlopen idempotent forcelist total' connect read' rest in
          (o, S n)
      | _, _, _ => (Raised, 1%nat)
      end
  end.

Record Session : Type := { max_retries : Retry }.

Definition get {B} (session : Session) (w : wire B) : outcome B * nat :=
  let r := max_retries session in
  urlopen (bool_decide ("GET"%string ∈ allowed_methods r))
          (status_forcelist r) (total r) (connect r) (read r) w.

(** [requests.get]: a fresh session with the default adapter, whose
    policy is [Retry(0, read=False)]. *)
Definition default_session : Session :=
  {| max_retries := {| total := 0; backoff_factor := 0; status_forcelist := [];
                       allowed_methods := []; read := 0; connect := 0 |} |}.

Definition requests_get {B} (w : wire B) : outcome B * nat :=
  get default_session w.

(** [response.raise_for_status()] raises on a 4xx or 5xx status. *)
Definition raise_for_status {B} (o : outcome B) : outcome B :=
  match o with
  | Response code body =>
      if bool_decide (400 ≤ code < 600) then Raised else Response code body
  | Raised => Raised
  end.

(** The body of a response read with [resp.json()]: not JSON at all (the
    call raises), or an object whose list-valued key ('Data', 'STATION')
    may be absent. *)
Inductive payload (A : Type) : Type :=
| NotJson
| Object (items : option (list A)).
Arguments NotJson {A}.
Arguments Object {A} items.

(** The requests of the two scripts, and the log entry of one call: the
    endpoint, the session it was sent through and the tries it took. *)
Inductive endpoint : Type :=
| CountiesByState
| SitesByCounty (county : string)
| MonitorsBySite (county site : string)
| SampleDataBySite (county site : string) (bdate edate : Z)
| StationsMetadata
| StationsTimeseries.

Record call : Type := {
  call_endpoint : endpoint;
  call_session : Session;
  call_tries : nat
}.

(** A try that a policy with the given force list repeats. *)
Definition retriable {B} (forcelist : list Z) (a : attempt B) : Prop :=
  match a with
  | Answer status_code _ => status_code ∈ forcelist
  | ConnectionError | ReadTimeout => True
  end.

(** Every request of a log went through the given session. *)
Definition sent_through (session : Session) (log : list call) : Prop :=
  Forall (λ c, call_session c = session) log.

(** A request made with [requests.get], in one try. *)
Definition plain_call (c : call) : Prop :=
  call_session c = default_session ∧ call_tries c = 1%nat.

End Http.

(** ** The part of pandas the two scripts use *)

Module Pandas.

(** A frame keyed by timestamp: the names of the value columns and, per
    row, the timestamp with one cell per column.  For the pivoted table
    the timestamp is the index; in the CSV read back by the fusion script
    it is the 'datetime' column. *)
Record DataFrame : Type := {
  columns : list string;
  rows : list (Z * list (option Q))
}.

Definition timestamps (df : DataFrame) : list Z := (rows df).*1.

(** The distinct values of a list in the order of their first appearance,
    as [Series.unique()] and the column order of a frame built from
    records have it. *)
Fixpoint unique {A} `{EqDecision A} (l : list A) : list A :=
  match l with
  | [] => []
  | x :: l' => x :: filter (λ y, y ≠ x) (unique l')
  end.

(** The order in which column names are sorted. *)
Definition name_le (a b : string) : Prop := String.leb a b = true.

#[global] Instance name_le_dec : RelDecision name_le.
Proof. intros a b. unfold name_le. apply _. Defined.

(** [name in df.columns] *)
Definition has_column (name : string) (df : DataFrame) : bool :=
  bool_decide (name ∈ columns df).

(** The cell of a row under a column name; missing when the frame has no
    such column. *)
Definition cell_of (cols : list string) (cells : list (option Q))
    (name : string) : option Q :=
  match list_find (λ c, c = name) cols with
  | Some (i, _) => mjoin (cells !! i)
  | None => None
  end.

(** [df.drop(columns=[c for c in df.columns if p c])] *)
Definition drop {A} (p : string → bool) (cols : list string) (xs : list A) : list A :=
  (filter (λ cx, p cx.1 = false) (zip cols xs)).*2.

Definition drop_columns (p : string → bool) (df : DataFrame) : DataFrame :=
  {| columns := drop p (columns df) (columns df);
     rows := map (λ r, (r.1, drop p (columns df) r.2)) (rows df) |}.

(** [df[name] = None]: an existing column is overwritten where it stands,
    a new one is appended. *)
Definition assign_none (name : string) (df : DataFrame) : DataFrame :=
  match list_find (λ c, c = name) (columns df) with
  | Some (i, _) =>
      {| columns := columns df;
         rows := map (λ r, (r.1, <[i := None]> r.2)) (rows df) |}
  | None =>
      {| columns := columns df ++ [name];
         rows := map (λ r, (r.1, r.2 ++ [None])) (rows df) |}
  end.

(** [pd.merge(left, right, on='datetime', how='left')] where [right] has
    the key and one value column [name]: the left rows in their order, a
    left row without a match once with a missing value, a left row with
    matches once per matching right row, in the order of [right]. *)
Definition merge_left (left : DataFrame) (name : string)
    (right : list (Z * option Q)) : DataFrame :=
  {| columns := columns left ++ [name];
     rows := flat_map (λ r,
               match filter (λ m, m.1 = r.1) right with
               | [] => [(r.1, r.2 ++ [None])]
               | ms => map (λ m, (r.1, r.2 ++ [m.2])) ms
               end) (rows left) |}.

(** [df.reindex(columns=names)] *)
Definition reindex (names : list string) (df : DataFrame) : DataFrame :=
  {| columns := names;
     rows := map (λ r, (r.1, map (cell_of (columns df) r.2) names)) (rows df) |}.

(** [df.dropna()]: the rows without a missing cell. *)
Definition dropna (df : DataFrame) : DataFrame :=
  {| columns := columns df;
     rows := filter (λ r, Forall (λ c, is_Some c) r.2) (rows df) |}.

(** Every row of a frame has one cell per column. *)
Definition rectangular (df : DataFrame) : Prop :=
  Forall (λ r, length r.2 = length (columns df)) (rows df).

(** The frame has the column and every cell of it is missing. *)
Definition all_missing (name : string) (df : DataFrame) : Prop :=
  name ∈ columns df ∧
  ∀ t cells, (t, cells) ∈ rows df → cell_of (columns df) cells name = None.

End Pandas.


(** ** The metadata document shared by the two scripts *)

Module Meta.

(** A Python dictionary with string keys, in insertion order.  [d.get(k)]: *)
Fixpoint dict_get {A} (k : string) (d : list (string * A)) : option A :=
  match d with
  | [] => None
  | (k', v) :: d' => if bool_decide (k' = k) then Some v else dict_get k d'
  end.

(** [d[k] = v]: a key already present keeps its place and takes the new
    value. *)
Fixpoint dict_set {A} (k : string) (v : A) (d : list (string * A)) : list (string * A) :=
  match d with
  | [] => [(k, v)]
  | (k', v') :: d' =>
      if bool_decide (k' = k) then (k, v) :: d' else (k', v') :: dict_set k v d'
  end.

(** The collapsed value of one attribute of one channel. *)
Inductive collapsed (V : Type) : Type :=
| Null
| Scalar (v : V)
| Values (vs : list V).
Arguments Null {V}.
Arguments Scalar {V} v.
Arguments Values {V} vs.

(** The entry of one channel under 'details': the string "No Data", or the
    attributes of the channel in the order of the frame's columns. *)
Inductive channel_entry (V : Type) : Type :=
| NoData
| Details (fields : list (string * collapsed V)).
Arguments NoData {V}.
Arguments Details {V} fields.

(** The 'synoptic_source' block the fusion script writes.  Units and
    sensor variables are JSON objects passed through unread. *)
Record SynopticSource : Type := {
  station_id : string;
  station_name : option string;
  distance_miles : option Q;
  vars_fetched : list string;
  fetch_date : string;
  units : string;
  sensor_variables : string
}.

Record Metadata (V : Type) : Type := {
  site_name : option string;
  site_id : string;
  county_code : string;
  params : list string;
  details : option (list (string * channel_entry V));
  raw_file : string;
  cleaned_file : string;
  synoptic_source : option SynopticSource
}.
Arguments site_name {V} _.
Arguments site_id {V} _.
Arguments county_code {V} _.
Arguments params {V} _.
Arguments details {V} _.
Arguments raw_file {V} _.
Arguments cleaned_file {V} _.
Arguments synoptic_source {V} _.

(** [metadata['synoptic_source'] = block] *)
Definition set_synoptic_source {V} (block : SynopticSource) (m : Metadata V) : Metadata V :=
  {| site_name := site_name m; site_id := site_id m; county_code := county_code m;
     params := params m; details := details m; raw_file := raw_file m;
     cleaned_file := cleaned_file m; synoptic_source := Some block |}.

End Meta.

(** ** Scrapers/SynopticScraper.py *)

Module SynopticScraper.
Import Http Pandas Meta.

(** [sub in s] on Python strings. *)
Fixpoint contains (sub s : string) : bool :=
  String.prefix sub s ||
  match s with
  | EmptyString => false
  | String _ s' => contains sub s'
  end.

(** The supplementary frame: one row per observation, the wall-clock
    timestamp ('datetime_synoptic') and the value ('SR_Synoptic'). *)
Definition Series : Type := list (Z * option Q).

Definition fuse_data (original_df : DataFrame) (synoptic_df : Series) : DataFrame :=
  match synoptic_df with
  | [] => assign_none "SR_Synoptic" original_df
  | _ =>
      let original_df := drop_columns (contains "SR_Synoptic") original_df in
      merge_left original_df "SR_Synoptic" synoptic_df
  end.

(** One entry of 'STATION' in the answer of the station metadata endpoint. *)
Record Station : Type := {
  STID : option string;
  NAME : option string;
  DISTANCE : option Q;
  TIMEZONE : option string
}.

(** The call is made with [requests.get] and everything from the request to
    the indexing of the answer sits in one [try]: any failure gives
    [(None, None)]. *)
Definition find_nearest_station (w : wire (payload Station))
    : option (string * Station) * list call :=
  let '(o, n) := requests_get w in
  let log := [{| call_endpoint := StationsMetadata;
                 call_session := default_session; call_tries := n |}] in
  match raise_for_status o with
  | Response _ (Object (Some (station :: _))) =>
      match STID station with
      | Some stid => (Some (stid, station), log)
      | None => (None, log)
      end
  | _ => (None, log)
  end.

(** The answer of the time series endpoint.  [date_time] holds the absolute
    instants that [pd.to_datetime(..., utc=True)] reads from the strings. *)
Record Observations : Type := {
  date_time : option (list Z);
  solar_radiation_set_1 : option (list (option Q))
}.

Record TimeseriesStation : Type := {
  OBSERVATIONS : option Observations;
  SENSOR_VARIABLES : option string
}.

Inductive timeseries_payload : Type :=
| TsNotJson
| TsObject (STATION : option (list TimeseriesStation)) (UNITS : option string).

(** The function has two shapes of result: a bare empty frame on the two
    early exits, a triple otherwise. *)
Inductive fetched : Type :=
| Bare (df : Series)
| Triple (df : Series) (units sensor_vars : string).

(** What a run of the script leaves behind: the exit status, the frame
    written over the CSV (if it was written), the document written over the
    JSON file (if it was written) and the requests made. *)
Record Run (V : Type) : Type := {
  exit_code : Z;
  csv_written : option DataFrame;
  json_written : option (Metadata V);
  calls : list call
}.
Arguments exit_code {V} _.
Arguments csv_written {V} _.
Arguments json_written {V} _.
Arguments calls {V} _.

Definition failed {V} (log : list call) : Run V :=
  {| exit_code := 1; csv_written := None; json_written := None; calls := log |}.

Section Timezones.

(** The time zone database: the offset from UTC of a named zone at an
    instant, or nothing for a name [tz_convert] rejects. *)
Variable tzdb : string → option (Z → Z).

(** [dates.tz_convert(zone).tz_localize(None)]: the wall-clock reading of an
    instant, in the station's zone when it is given and known, in UTC
    otherwise. *)
Definition wall_clock (station_timezone : option string) (t : Z) : Z :=
  match station_timezone with
  | Some zone =>
      if bool_decide (zone = ""%string) then t
      else match tzdb zone with
           | Some offset => t + offset t
           | None => t
           end
  | None => t
  end.

Definition fetch_synoptic_data (station_timezone : option string)
    (w : wire timeseries_payload) : fetched * list call :=
  let '(o, n) := requests_get w in
  let log := [{| call_endpoint := StationsTimeseries;
                 call_session := default_session; call_tries := n |}] in
  match raise_for_status o with
  | Response _ (TsObject (Some (station :: _)) units) =>
      let observations := default {| date_time := None; solar_radiation_set_1 := None |}
                                  (OBSERVATIONS station) in
      match date_time observations, solar_radiation_set_1 observations with
      | Some instants, Some values =>
          if bool_decide (length instants = length values) then
            (Triple (zip (map (wall_clock station_timezone) instants) values)
                    (default "{}"%string units)
                    (default "{}"%string (SENSOR_VARIABLES station)), log)
          else (Triple [] "{}" "{}", log)
      | _, _ => (Bare [], log)
      end
  | Response _ (TsObject _ _) => (Bare [], log)
  | _ => (Triple [] "{}" "{}", log)
  end.

(** The first channel of 'details' that has both a 'latitude' and a
    'longitude' key gives the location.  In the string "No Data" the test
    ['latitude' in ...] is a substring test, which fails. *)
Fixpoint location {V} (details : list (string * channel_entry V))
    : option (collapsed V * collapsed V) :=
  match details with
  | [] => None
  | (_, Details fields) :: rest =>
      match dict_get "latitude" fields, dict_get "longitude" fields with
      | Some lat, Some lon => Some (lat, lon)
      | _, _ => location rest
      end
  | (_, NoData) :: rest => location rest
  end.

Definition is_null {V} (c : collapsed V) : bool :=
  match c with Null => true | _ => false end.

(** [main]: the environment token, the result of [load_data] (nothing when
    a file cannot be read, which exits with 1), the two endpoints and the
    clock reading stored as 'fetch_date'. *)
Definition main {V} (MESOWEST_TOKEN : option string)
    (loaded : option (DataFrame * Metadata V))
    (metadata_wire : wire (payload Station))
    (timeseries_wire : wire timeseries_payload)
    (now : string) : Run V :=
  match MESOWEST_TOKEN with
  | None => failed []
  | Some token =>
  if bool_decide (token = ""%string) then failed [] else
  match loaded with
  | None => failed []
  | Some (df, metadata) =>
  match location (default [] (details metadata)) with
  | None => failed []
  | Some (lat, lon) =>
  if is_null lat || is_null lon then failed [] else
  let '(found, log1) := find_nearest_station metadata_wire in
  let absent :=
    {| exit_code := 0;
       csv_written := Some (if has_column "SR_Synoptic" df then df
                            else assign_none "SR_Synoptic" df);
       json_written := None;
       calls := log1 |} in
  match found with
  | None => absent
  | Some (station_id, station_meta) =>
  if bool_decide (station_id = ""%string) then absent else
  (* df['datetime'].min() of a frame without rows is NaT, and
     [start_time.strftime] on it raises outside of any [try] *)
  match rows df with
  | [] => failed log1
  | _ =>
  let '(result, log2) := fetch_synoptic_data (TIMEZONE station_meta) timeseries_wire in
  match result with
  | Bare _ => failed (log1 ++ log2)   (* the unpacking into three names raises *)
  | Triple synoptic_data units sensor_vars =>
      let final_df := fuse_data df synoptic_data in
      let block :=
        {| station_id := station_id;
           station_name := NAME station_meta;
           distance_miles := DISTANCE station_meta;
           vars_fetched := ["solar_radiation"%string];
           fetch_date := now;
           units := units;
           sensor_variables := sensor_vars |} in
      {| exit_code := 0;
         csv_written := Some final_df;
         json_written := Some (set_synoptic_source block metadata);
         calls := log1 ++ log2 |}
  end end end end end end.

End Timezones.

End SynopticScraper.


(** ** scraper.py *)

Module scraper.
Import Http Pandas Meta.

Definition STATE_CODE : string := "49".

(** Parameter codes, in the order of the dictionary literal. *)
Definition PARAMS : list (string * string) :=
  [("44201", "O3"); ("42601", "NO"); ("42602", "NO2"); ("63301", "SR");
   ("62101", "Temp")]%string.

Definition TIMEOUT : Z := 20.

Definition get_session : Session :=
  {| max_retries :=
       {| total := 5;
          backoff_factor := 2;
          status_forcelist := [429; 500; 502; 503; 504];
          allowed_methods := ["HEAD"; "GET"; "OPTIONS"]%string;
          read := 5;
          connect := 5 |} |}.

(** The entries of the answers of the AQS endpoints, with the keys the
    program reads. *)
Record County : Type := {
  county_entry_code : string;
  county_value_represented : string
}.

Record SiteEntry : Type := {
  entry_code : string;
  entry_value_represented : option string;
  entry_local_site_name : option (option string)
}.

Record Monitor : Type := { monitor_parameter_code : string }.

(** A sample: the keys the program reads by name, and the remaining keys of
    the record with their values (JSON null is [None]). *)
Record RawSample (V : Type) : Type := {
  date_local : string;
  time_local : string;
  parameter_code : string;
  sample_measurement : option Q;
  attributes : list (string * option V)
}.
Arguments date_local {V} _.
Arguments time_local {V} _.
Arguments parameter_code {V} _.
Arguments sample_measurement {V} _.
Arguments attributes {V} _.

(** A listed site after [get_sites] has tagged it with its county. *)
Record Site : Type := {
  code : string;
  value_represented : option string;
  local_site_name : option (option string);
  site_county_code : string;
  site_county_name : string
}.

(** The AQS service: for each request the program can make, what its
    successive tries meet. *)
Record AQS (V : Type) : Type := {
  countiesByState : wire (payload County);
  sitesByCounty : string → wire (payload SiteEntry);
  monitors_bySite : string → string → wire (payload Monitor);
  sampleData_bySite : string → string → Z → Z → wire (payload (RawSample V))
}.
Arguments countiesByState {V} _.
Arguments sitesByCounty {V} _ _.
Arguments monitors_bySite {V} _ _ _.
Arguments sampleData_bySite {V} _ _ _ _ _.

Definition logged (e : endpoint) (n : nat) : call :=
  {| call_endpoint := e; call_session := get_session; call_tries := n |}.

Definition tag_site (county : County) (site : SiteEntry) : Site :=
  {| code := entry_code site;
     value_represented := entry_value_represented site;
     local_site_name := entry_local_site_name site;
     site_county_code := county_entry_code county;
     site_county_name := county_value_represented county |}.

(** The loop over the counties; [None] when a call raises, which leaves the
    [try] block of [get_sites]. *)
Fixpoint sites_of_counties {V} (net : AQS V) (counties : list County)
    (all_sites : list Site) : option (list Site) * list call :=
  match counties with
  | [] => (Some all_sites, [])
  | county :: rest =>
      let county_code := county_entry_code county in
      let '(s_resp, n) := get get_session (sitesByCounty net county_code) in
      let entry := logged (SitesByCounty county_code) n in
      match s_resp with
      | Raised => (None, [entry])
      | Response status body =>
          if bool_decide (status = 200) then
            match body with
            | NotJson => (None, [entry])
            | Object data =>
                let sites_data := default [] data in
                let '(r, log) :=
                  sites_of_counties net rest
                    (all_sites ++ map (tag_site county) sites_data) in
                (r, entry :: log)
            end
          else
            let '(r, log) := sites_of_counties net rest all_sites in
            (r, entry :: log)
      end
  end.

Definition uid (s : Site) : string :=
  STATE_CODE +:+ "-" +:+ site_county_code s +:+ "-" +:+ code s.

Definition get_sites {V} (net : AQS V) : list Site * list call :=
  let '(resp, n) := get get_session (countiesByState net) in
  let entry := logged CountiesByState n in
  match resp with
  | Raised => ([], [entry])
  | Response status body =>
      if bool_decide (status ≠ 200) then ([], [entry])
      else match body with
           | NotJson => ([], [entry])
           | Object data =>
               let counties := default [] data in
               let '(r, log) := sites_of_counties net counties [] in
               match r with
               | None => ([], entry :: log)
               | Some all_sites =>
                   let unique_sites :=
                     foldl (λ d s, dict_set (uid s) s d) [] all_sites in
                   (unique_sites.*2, entry :: log)
               end
           end
  end.

Definition check_site_monitors {V} (net : AQS V) (county site : string)
    : (bool * list string) * list call :=
  let '(resp, n) := get get_session (monitors_bySite net county site) in
  let log := [logged (MonitorsBySite county site) n] in
  match resp with
  | Raised => ((false, []), log)
  | Response status body =>
      if bool_decide (status ≠ 200) then ((false, []), log)
      else match body with
           | NotJson => ((false, []), log)
           | Object data =>
               let monitors := default [] data in
               let found_params :=
                 remove_dups
                   (filter (λ c, c ∈ PARAMS.*1) (map monitor_parameter_code monitors)) in
               let required := PARAMS.*1 in
               let has_all := bool_decide (required ⊆ found_params) in
               ((has_all, found_params), log)
           end
  end.

Definition fetch_hourly_data {V} (net : AQS V) (county site : string) (bdate edate : Z)
    : list (RawSample V) * list call :=
  let '(resp, n) := get get_session (sampleData_bySite net county site bdate edate) in
  let log := [logged (SampleDataBySite county site bdate edate) n] in
  match resp with
  | Raised => ([], log)
  | Response status body =>
      if bool_decide (status ≠ 200) then ([], log)
      else match body with
           | NotJson => ([], log)
           | Object data => (default [] data, log)
           end
  end.

(** The parameter codes the capability check observes for a site: those of
    the monitors listed under 'Data' when the request is answered with
    status 200 and a JSON body, none otherwise. *)
Definition observed_codes {V} (net : AQS V) (county site : string) : list string :=
  match (get get_session (monitors_bySite net county site)).1 with
  | Response status (Object data) =>
      if bool_decide (status = 200)
      then map monitor_parameter_code (default [] data)
      else []
  | _ => []
  end.

(** [re.sub(r'[^\w\-_]', '_', name)] on ASCII text. *)
Definition is_word (c : ascii) : bool :=
  let n := nat_of_ascii c in
  ((48 <=? n) && (n <=? 57) || (65 <=? n) && (n <=? 90) ||
   (97 <=? n) && (n <=? 122) || (n =? 95) || (n =? 45))%nat.

Fixpoint sanitize_filename (name : string) : string :=
  match name with
  | EmptyString => EmptyString
  | String c rest =>
      String (if is_word c then c else "_"%char) (sanitize_filename rest)
  end.

(** What the script writes: a path with a frame (as CSV) or a metadata
    document (as JSON). *)
Inductive content (V : Type) : Type :=
| Csv (df : DataFrame)
| Json (m : Metadata V).
Arguments Csv {V} df.
Arguments Json {V} m.

Definition artifact (V : Type) : Type := string * content V.

(** The clock, read as [datetime.now()]. *)
Record Now : Type := { year : Z; month : Z; day : Z }.

(** Dates in the form YYYYMMDD.  The program holds them as text and compares
    the texts; for eight-digit texts that is the order of the numbers. *)
Definition strftime_Ymd (now : Now) : Z := year now * 10000 + month now * 100 + day now.

Definition START_YEAR : Z := 1980.

(** A reading of timestamps for the examples below: the digits of the text
    as one decimal number, so that "2020-11-01 01:00" is 202011010100.  On
    texts of that form it is one-to-one and keeps the order. *)
Fixpoint read_digits (acc : Z) (s : string) : Z :=
  match s with
  | EmptyString => acc
  | String c rest =>
      let n := Z.of_nat (nat_of_ascii c) in
      if (48 <=? n) && (n <=? 57)
      then read_digits (acc * 10 + (n - 48)) rest
      else read_digits acc rest
  end.

Definition iso_datetime (s : string) : Z := read_digits 0 s.

Section Reshaper.

(** [V] is the type of the attribute values of a sample, with the equality
    [unique()] tells values apart by; [to_datetime] is [pd.to_datetime] on
    the text "date time", taken to read every text it is given. *)
Context {V : Type} `{EqDecision V}.
Variable to_datetime : string → Z.

Definition datetime (s : RawSample V) : Z :=
  to_datetime (date_local s +:+ " " +:+ time_local s).

(** [df['parameter_code'].map(PARAMS)]: missing for a code outside the
    dictionary. *)
Definition param_name (s : RawSample V) : option string :=
  dict_get (parameter_code s) PARAMS.

Definition exclude : list string :=
  ["date_local"; "time_local"; "date_gmt"; "time_gmt"; "sample_measurement";
   "datetime"; "param_name"; "parameter_code"; "state_code"; "county_code";
   "site_number"]%string.

(** [[c for c in subset.columns if c not in exclude]].  The columns of the
    frame are the keys of the records in the order of their first
    appearance; the keys read by name are all in [exclude], so only the
    attribute keys can be candidates. *)
Definition candidates (df : list (RawSample V)) : list string :=
  filter (λ c, c ∉ exclude) (unique (flat_map (λ s, (attributes s).*1) df)).

(** [subset[col].dropna().unique()] *)
Definition unique_vals (subset : list (RawSample V)) (col : string) : list V :=
  unique (omap (λ s, mjoin (dict_get col (attributes s))) subset).

Definition collapse (val_list : list V) : collapsed V :=
  match val_list with
  | [] => Null
  | [v] => Scalar v
  | _ => Values val_list
  end.

Definition channel_details (df : list (RawSample V)) (p_code : string) : channel_entry V :=
  let subset := filter (λ s, parameter_code s = p_code) df in
  match subset with
  | [] => NoData
  | _ => Details (map (λ col, (col, collapse (unique_vals subset col))) (candidates df))
  end.

Definition parameter_details (df : list (RawSample V)) : list (string * channel_entry V) :=
  foldl (λ d kv, dict_set kv.2 (channel_details df kv.1) d) [] PARAMS.

(** The pivot.  [groupby(['datetime', 'param_name'])] leaves out the samples
    without a channel name, the mean of a group skips the missing
    measurements, and with the default [dropna=True] a group whose mean is
    missing is removed before the groups are spread into rows and columns.
    The index and the columns come out sorted. *)
Definition measurements (df : list (RawSample V)) (t : Z) (c : string) : list Q :=
  omap sample_measurement
       (filter (λ s, datetime s = t ∧ param_name s = Some c) df).

Definition mean (vs : list Q) : Q :=
  (foldr Qplus 0 vs / inject_Z (Z.of_nat (length vs)))%Q.

Definition group_key (s : RawSample V) : option (Z * string) :=
  match param_name s, sample_measurement s with
  | Some c, Some _ => Some (datetime s, c)
  | _, _ => None
  end.

Definition pivot_table (df : list (RawSample V)) : DataFrame :=
  let keys := omap group_key df in
  let index := merge_sort Z.le (unique keys.*1) in
  let names := merge_sort name_le (unique keys.*2) in
  {| columns := names;
     rows := map (λ t, (t, map (λ c, match measurements df t c with
                                     | [] => None
                                     | vs => Some (mean vs)
                                     end) names)) index |}.

Definition required_cols : list string := ["O3"; "NO"; "NO2"; "SR"; "Temp"]%string.

(** The channel has a sample with a measurement. *)
Definition has_data (df : list (RawSample V)) (c : string) : Prop :=
  Exists (λ s, param_name s = Some c ∧ is_Some (sample_measurement s)) df.

#[global] Instance has_data_dec (df : list (RawSample V)) (c : string) :
  Decision (has_data df c).
Proof. unfold has_data. apply _. Defined.

(** The cleaned view of a pivoted table. *)
Definition cleaned (df_pivoted : DataFrame) : DataFrame :=
  dropna (reindex required_cols df_pivoted).

(** The loop over the years of one site. *)
Fixpoint fetch_years (net : AQS V) (now : Now) (county site : string) (years : list Z)
    : list (RawSample V) * list call :=
  match years with
  | [] => ([], [])
  | y :: rest =>
      let today_str := strftime_Ymd now in
      let bdate := y * 10000 + 101 in
      if bool_decide (y = year now) && bool_decide (bdate > today_str) then ([], [])
      else
        let edate := if bool_decide (y = year now)
                     then Z.min (y * 10000 + 1231) today_str
                     else y * 10000 + 1231 in
        let '(data, log) := fetch_hourly_data net county site bdate edate in
        let '(more, log') := fetch_years net now county site rest in
        (data ++ more, log ++ log')
  end.

Definition is_space (c : ascii) : bool :=
  let n := nat_of_ascii c in
  ((9 <=? n) && (n <=? 13) || (28 <=? n) && (n <=? 32))%nat.

(** [not site_name or not site_name.strip()] *)
Definition blank (site_name : option string) : bool :=
  match site_name with
  | None => true
  | Some name => forallb is_space (list_ascii_of_string name)
  end.

Definition str (name : option string) : string := default "None"%string name.

(** The body of the loop over the sites: the files written for one site and
    the requests made for it. *)
Definition process_site (net : AQS V) (now : Now) (site_info : Site)
    : list (artifact V) * list call :=
  let site_id := code site_info in
  let county_code := site_county_code site_info in
  let site_name :=
    if blank (value_represented site_info)
    then default (Some ("Site_" +:+ site_id)) (local_site_name site_info)
    else value_represented site_info in
  let safe_name := sanitize_filename (str site_name +:+ "_" +:+ site_id) in
  let '((has_all, found), log1) := check_site_monitors net county_code site_id in
  if negb has_all then ([], log1)
  else
    let END_YEAR := year now in
    let '(all_records, log2) :=
      fetch_years net now county_code site_id (seqZ START_YEAR (END_YEAR + 1 - START_YEAR)) in
    match all_records with
    | [] => ([], log1 ++ log2)
    | _ =>
        let df := all_records in
        let details := parameter_details df in
        let df_pivoted := pivot_table df in
        let raw_file := "data/" +:+ safe_name +:+ "_raw.csv" in
        let df_cleaned := cleaned df_pivoted in
        let cleaned_file := "data/" +:+ safe_name +:+ "_cleaned.csv" in
        let metadata :=
          {| site_name := site_name;
             site_id := site_id;
             county_code := county_code;
             params := required_cols;
             details := Some details;
             raw_file := raw_file;
             cleaned_file := cleaned_file;
             synoptic_source := None |} in
        let meta_file := "data/" +:+ safe_name +:+ "_metadata.json" in
        ([(raw_file, Csv df_pivoted); (cleaned_file, Csv df_cleaned);
          (meta_file, Json metadata)], log1 ++ log2)
    end.

Definition main (net : AQS V) (now : Now) : list (artifact V) * list call :=
  let '(sites, log) := get_sites net in
  match sites with
  | [] => ([], log)
  | _ =>
      let runs := map (process_site net now) sites in
      (concat runs.*1, log ++ concat runs.*2)
  end.

End Reshaper.

End scraper.

(** ** A small network, used in the examples *)

Module Fixture.
Import Http scraper.

Definition county : County :=
  {| county_entry_code := "035"; county_value_represented := "Salt Lake" |}.

Definition entry : SiteEntry :=
  {| entry_code := "3006";
     entry_value_represented := Some "Hawthorne"%string;
     entry_local_site_name := None |}.

Definition site : Site := tag_site county entry.

Definition monitors : list Monitor :=
  map Build_Monitor ["44201"; "42601"; "42602"; "63301"; "62101"; "88101"]%string.

Definition sample (code date time : string) (measurement : option Q) : RawSample string :=
  {| date_local := date;
     time_local := time;
     parameter_code := code;
     sample_measurement := measurement;
     attributes := [("state_code", Some "49"); ("latitude", Some "40.73");
                    ("longitude", Some "-111.87"); ("qualifier", None)]%string |}.

(** The site is listed, has monitors for every required parameter, and has
    the given samples in 2020 and none in any other year. *)
Definition net (samples_2020 : list (RawSample string)) : AQS string :=
  {| countiesByState := [Answer 200 (Object (Some [county]))];
     sitesByCounty := λ _, [Answer 200 (Object (Some [entry]))];
     monitors_bySite := λ _ _, [Answer 200 (Object (Some monitors))];
     sampleData_bySite := λ _ _ bdate _,
       if bool_decide (bdate = 20200101)
       then [Answer 200 (Object (Some samples_2020))]
       else [Answer 200 (Object (Some []))] |}.

Definition now : Now := {| year := 2024; month := 3; day := 9 |}.

End Fixture.

(** ** What the listing endpoints yield, as [get_sites] reads them *)

Module Listing.
Import Http scraper.

(** The counties of the state: the 'Data' of a 200 answer, none for any
    other outcome of the request. *)
Definition counties {V} (net : AQS V) : list County :=
  match (get get_session (countiesByState net)).1 with
  | Response status (Object data) =>
      if bool_decide (status = 200) then default [] data else []
  | _ => []
  end.

(** The sites listed for a county: the 'Data' of a 200 answer, none for an
    answer with another status. *)
Definition sites {V} (net : AQS V) (county : County) : list SiteEntry :=
  match (get get_session (sitesByCounty net (county_entry_code county))).1 with
  | Response status (Object data) =>
      if bool_decide (status = 200) then default [] data else []
  | _ => []
  end.

(** The request for the sites of a county ends in an exception: the session
    gives up, or a 200 answer has a body that is not JSON. *)
Definition raises {V} (net : AQS V) (county : County) : bool :=
  match (get get_session (sitesByCounty net (county_entry_code county))).1 with
  | Raised => true
  | Response status NotJson => bool_decide (status = 200)
  | Response _ (Object _) => false
  end.

(** Every listed site, tagged with its county, in the order of the loop. *)
Definition all_sites {V} (net : AQS V) : list Site :=
  flat_map (λ county, map (tag_site county) (sites net county)) (counties net).

End Listing.

(** ** A table, a metadata document and a station, used in the examples of
    the fusion run *)

Module FusionFixture.
Import Http Pandas Meta SynopticScraper.

Definition table : DataFrame :=
  {| columns := ["O3"; "SR_Synoptic"]%string;
     rows := [(1604192400, [Some (3 # 100)%Q; Some 412%Q]);
              (1604196000, [Some (4 # 100)%Q; Some 380%Q])] |}.

Definition metadata : Metadata string :=
  {| site_name := Some "Hawthorne"%string;
     site_id := "3006";
     county_code := "035";
     params := ["O3"; "NO"; "NO2"; "SR"; "Temp"]%string;
     details := Some [("O3"%string,
                       Details [("latitude"%string, Scalar "40.73"%string);
                                ("longitude"%string, Scalar "-111.87"%string)]);
                      ("NO"%string, NoData)];
     raw_file := "data/Hawthorne_3006_raw.csv";
     cleaned_file := "data/Hawthorne_3006_cleaned.csv";
     synoptic_source := None |}.

Definition station : Station :=
  {| STID := Some "WBB"%string;
     NAME := Some "U of U William Browning Building"%string;
     DISTANCE := Some (21 # 10)%Q;
     TIMEZONE := Some "America/Denver"%string |}.

(** The zone of the station at a fixed offset of seven hours behind UTC. *)
Definition tzdb (zone : string) : option (Z → Z) :=
  if bool_decide (zone = "America/Denver"%string) then Some (λ _, -25200) else None.

Definition lookup : wire (payload Station) :=
  [Answer 200 (Object (Some [station]))].

(** Two observations, at 08:00 and 09:00 UTC of 2020-11-01. *)
Definition timeseries : wire timeseries_payload :=
  [Answer 200
     (TsObject
        (Some [{| OBSERVATIONS :=
                    Some {| date_time := Some [1604217600; 1604221200];
                            solar_radiation_set_1 := Some [Some 9%Q; None] |};
                  SENSOR_VARIABLES := None |}])
        (Some "{solar_radiation: W/m**2}"%string))].

End FusionFixture.


(** * Properties *)

Import Http Pandas Meta.

(** ** Frames *)

Lemma elem_of_unique {A} `{EqDecision A} (l : list A) (x : A) :
  x ∈ unique l ↔ x ∈ l.
Proof.
  induction l as [|y l IH]; simpl; [done|].
  rewrite !elem_of_cons, list_elem_of_filter, IH.
  destruct (decide (x = y)); tauto.
Qed.

Lemma NoDup_unique {A} `{EqDecision A} (l : list A) : NoDup (unique l).
Proof.
  induction l as [|y l IH]; simpl; [constructor|].
  constructor; [|by apply NoDup_filter].
  rewrite list_elem_of_filter. intros [Hne _]. by apply Hne.
Qed.

Lemma drop_self (p : string → bool) (cols : list string) :
  drop p cols cols = filter (λ c, p c = false) cols.
Proof.
  unfold drop. induction cols as [|c cols IH]; [done|].
  cbn [zip zip_with]. rewrite !filter_cons. cbn [fst].
  destruct (decide (p c = false)); cbn [fmap list_fmap snd]; by rewrite <- IH.
Qed.

Lemma length_drop {A B} (p : string → bool) (cols : list string)
    (xs : list A) (ys : list B) :
  length xs = length cols → length ys = length cols →
  length (drop p cols xs) = length (drop p cols ys).
Proof.
  unfold drop. rewrite !length_fmap. revert xs ys.
  induction cols as [|c cols IH]; intros [|x xs] [|y ys] Hx Hy;
    try discriminate; [done|].
  cbn [zip zip_with]. rewrite !filter_cons. cbn [fst].
  injection Hx as Hx. injection Hy as Hy.
  destruct (decide (p c = false)); cbn [length]; by rewrite (IH xs ys).
Qed.

Lemma list_find_fresh (cols : list string) (name : string) :
  name ∉ cols →
  list_find (λ c, c = name) (cols ++ [name]) = Some (length cols, name).
Proof.
  intros Hfresh.
  rewrite list_find_app_r.
  - simpl. rewrite decide_True by done. done.
  - apply list_find_None. apply Forall_forall. intros c Hc ->. done.
Qed.

Lemma cell_of_fresh (cols : list string) (cells : list (option Q))
    (name : string) (v : option Q) :
  name ∉ cols → length cells = length cols →
  cell_of (cols ++ [name]) (cells ++ [v]) name = v.
Proof.
  intros Hfresh Hlen. unfold cell_of.
  rewrite list_find_fresh by done.
  rewrite <- Hlen, list_lookup_middle by done. done.
Qed.

Lemma cell_of_cons (c : string) (cols : list string) (x : option Q)
    (cells : list (option Q)) (name : string) :
  cell_of (c :: cols) (x :: cells) name
  = if decide (c = name) then x else cell_of cols cells name.
Proof.
  unfold cell_of. cbn [list_find].
  destruct (decide (c = name)); [done|].
  by destruct (list_find (λ c', c' = name) cols) as [[i c']|].
Qed.

Lemma cell_of_drop (p : string → bool) (cols : list string)
    (cells : list (option Q)) (name : string) :
  p name = false → length cells = length cols →
  cell_of (drop p cols cols) (drop p cols cells) name = cell_of cols cells name.
Proof.
  intros Hname. revert cells.
  induction cols as [|c cols IH]; intros [|x cells] Hlen; try discriminate; [done|].
  injection Hlen as Hlen. rewrite cell_of_cons.
  unfold drop in *. cbn [zip zip_with]. rewrite !filter_cons. cbn [fst].
  destruct (decide (p c = false)) as [Hc|Hc]; cbn [fmap list_fmap snd].
  - rewrite cell_of_cons. destruct (decide (c = name)); [done|]. by apply IH.
  - rewrite decide_False by congruence. by apply IH.
Qed.

Lemma cell_of_app_old (cols : list string) (cells : list (option Q))
    (new name : string) (v : option Q) :
  name ≠ new → length cells = length cols →
  cell_of (cols ++ [new]) (cells ++ [v]) name = cell_of cols cells name.
Proof.
  intros Hne. revert cells.
  induction cols as [|c cols IH]; intros [|x cells] Hlen; try discriminate.
  - cbn [app]. rewrite cell_of_cons. by rewrite decide_False by congruence.
  - injection Hlen as Hlen. cbn [app]. rewrite !cell_of_cons.
    destruct (decide (c = name)); [done|]. by apply IH.
Qed.

Lemma elem_of_drop_columns (p : string → bool) (df : DataFrame) (t : Z)
    (cells : list (option Q)) :
  (t, cells) ∈ rows (drop_columns p df) →
  ∃ old, (t, old) ∈ rows df ∧ cells = drop p (columns df) old.
Proof.
  unfold drop_columns. cbn [rows].
  intros ([t' old] & Heq & Hin)%list_elem_of_fmap.
  cbn [fst snd] in Heq. injection Heq as -> ->. eauto.
Qed.

(** ** Fusion merge *)

Lemma prefix_refl (s : string) : String.prefix s s = true.
Proof.
  induction s as [|c s IH]; [done|].
  simpl. destruct (ascii_dec c c); [done|congruence].
Qed.

Lemma contains_refl (s : string) : SynopticScraper.contains s s = true.
Proof.
  destruct s as [|c s]; [done|].
  change (SynopticScraper.contains (String c s) (String c s))
    with (String.prefix (String c s) (String c s)
          || SynopticScraper.contains (String c s) s).
  by rewrite prefix_refl.
Qed.

(** A left merge against a series without a repeated timestamp keeps the
    timestamps of the left frame as they are. *)
Lemma merge_left_timestamps (left : DataFrame) (name : string)
    (right : list (Z * option Q)) :
  NoDup right.*1 →
  timestamps (merge_left left name right) = timestamps left.
Proof.
  intros Hnd. unfold timestamps, merge_left. simpl.
  induction (rows left) as [|r rs IH]; [done|].
  simpl. rewrite fmap_app, IH. f_equal.
  assert (Hone : ∀ t, (length (filter (λ m : Z * option Q, m.1 = t) right) ≤ 1)%nat).
  { clear -Hnd. intros t. induction right as [|m right IHr]; simpl; [lia|].
    apply NoDup_cons in Hnd as [Hm Hnd].
    rewrite filter_cons. destruct (decide (m.1 = t)) as [<-|]; [|by apply IHr].
    destruct (filter _ right) as [|m' ms] eqn:Hf; simpl; [lia|].
    exfalso. apply Hm.
    assert (Hin : m' ∈ filter (λ m0 : Z * option Q, m0.1 = m.1) right)
      by (rewrite Hf; left).
    apply list_elem_of_filter in Hin as [<- Hin].
    by apply list_elem_of_fmap_2. }
  specialize (Hone r.1).
  destruct (filter _ right) as [|m [|m' ms]]; simpl in *; [done|done|lia].
Qed.

Lemma fuse_data_timestamps (C : DataFrame) (S : SynopticScraper.Series) :
  NoDup S.*1 →
  timestamps (SynopticScraper.fuse_data C S) = timestamps C.
Proof.
  intros Hnd. unfold SynopticScraper.fuse_data.
  destruct S as [|s S].
  - unfold assign_none, timestamps.
    destruct (list_find _ _) as [[i ?]|]; simpl;
      rewrite <- list_fmap_compose; by apply list_fmap_ext.
  - rewrite merge_left_timestamps by done.
    unfold timestamps, drop_columns. simpl.
    rewrite <- list_fmap_compose. by apply list_fmap_ext.
Qed.

Lemma filter_drop_contains (cols : list string) :
  filter (λ c, SynopticScraper.contains "SR_Synoptic" c = true)
         (filter (λ c, SynopticScraper.contains "SR_Synoptic" c = false) cols) = [].
Proof.
  induction cols as [|c cols IH]; [done|].
  rewrite filter_cons.
  destruct (decide (SynopticScraper.contains "SR_Synoptic" c = false)) as [Hc|Hc];
    [|done].
  rewrite filter_cons, decide_False by congruence. done.
Qed.

Lemma fused_name_dropped (cols : list string) :
  "SR_Synoptic"%string ∉ filter (λ c, SynopticScraper.contains "SR_Synoptic" c = false) cols.
Proof.
  rewrite list_elem_of_filter. intros [Hc _].
  by rewrite contains_refl in Hc.
Qed.

(** The rows of a left merge: each comes from a left row, extended by the
    value of a matching right row, or by a missing value when the right
    side has no row at that timestamp. *)
Lemma elem_of_merge_left (left : DataFrame) (name : string)
    (right : list (Z * option Q)) (t : Z) (cells : list (option Q)) :
  (t, cells) ∈ rows (merge_left left name right) →
  ∃ old v, (t, old) ∈ rows left ∧ cells = old ++ [v] ∧
           ((t, v) ∈ right ∨ (v = None ∧ t ∉ right.*1)).
Proof.
  unfold merge_left. simpl. rewrite list_elem_of_In, in_flat_map.
  intros ([t' old] & Hr%list_elem_of_In & Hin%list_elem_of_In). simpl in Hin.
  destruct (filter _ right) as [|m ms] eqn:Hf.
  - apply list_elem_of_singleton in Hin. simplify_eq.
    exists old, None. split_and!; [done..|]. right. split; [done|].
    intros ([t'' v] & -> & Hm)%list_elem_of_fmap. simpl in *.
    assert (Hin : (t'', v) ∈ filter (λ m : Z * option Q, m.1 = t'') right)
      by (by apply list_elem_of_filter).
    rewrite Hf in Hin. by apply not_elem_of_nil in Hin.
  - change ((t, cells) ∈ map (λ m0 : Z * option Q, (t', old ++ [m0.2])) (m :: ms)) in Hin.
    apply list_elem_of_fmap in Hin as ([t'' v] & Heq & Hm). simplify_eq/=.
    rewrite <- Hf in Hm. apply list_elem_of_filter in Hm as [Ht Hm]. simpl in Ht. subst.
    exists old, v. by split_and!; [..|left].
Qed.

Lemma rectangular_drop_columns (p : string → bool) (df : DataFrame) :
  rectangular df → rectangular (drop_columns p df).
Proof.
  unfold rectangular, drop_columns. simpl. intros Hrect.
  apply Forall_fmap. eapply Forall_impl; [exact Hrect|].
  intros [t cells] Hlen. simpl in *. by apply length_drop.
Qed.

(** C1 (the case the code gets wrong).  A supplementary series with a timestamp
    that occurs twice makes the fused table repeat the canonical row of that
    timestamp: one canonical row at 2020-11-01 01:00 and two observations at
    that wall-clock time give a table of two rows. *)
Example fuse_data_repeats_canonical_row :
  let C := {| columns := ["O3"%string];
              rows := [(1604192400, [Some (3 # 100)%Q])] |} in
  let S := [(1604192400, Some 12%Q); (1604192400, Some 9%Q)] in
  rows (SynopticScraper.fuse_data C S) =
    [(1604192400, [Some (3 # 100)%Q; Some 12%Q]);
     (1604192400, [Some (3 # 100)%Q; Some 9%Q])]
  ∧ length (rows (SynopticScraper.fuse_data C S)) ≠ length (rows C).
Proof. split; [reflexivity|discriminate]. Qed.

(** How such a series arises: the two instants 07:00 UTC and 08:00 UTC of
    the day the zone falls back from UTC-6 to UTC-7 read 01:00 on the wall
    clock both, and [fetch_synoptic_data] returns them as two rows with one
    timestamp. *)
Example fall_back_duplicates_wall_clock :
  let tzdb := λ zone : string,
    if bool_decide (zone = "America/Denver"%string)
    then Some (λ t, if bool_decide (t < 1604217600) then -21600 else -25200)
    else None in
  let obs := {| SynopticScraper.date_time := Some [1604214000; 1604217600];
                SynopticScraper.solar_radiation_set_1 := Some [Some 12%Q; Some 9%Q] |} in
  let body := SynopticScraper.TsObject
                (Some [{| SynopticScraper.OBSERVATIONS := Some obs;
                          SynopticScraper.SENSOR_VARIABLES := None |}]) None in
  (SynopticScraper.fetch_synoptic_data tzdb (Some "America/Denver"%string)
     [Answer 200 body]).1
  = SynopticScraper.Triple [(1604192400, Some 12%Q); (1604192400, Some 9%Q)] "{}" "{}".
Proof. reflexivity. Qed.



(** ** The fusion run without a station *)

Lemma assign_none_new (name : string) (df : DataFrame) :
  name ∉ columns df → rectangular df →
  all_missing name (assign_none name df)
  ∧ timestamps (assign_none name df) = timestamps df.
Proof.
  intros Hnew Hrect. unfold assign_none.
  assert (Hfind : list_find (λ c, c = name) (columns df) = None).
  { apply list_find_None. apply Forall_forall. by intros c Hc ->. }
  rewrite Hfind. split; [split|]; simpl.
  - apply elem_of_app. right. by left.
  - intros t cells ([t' old] & Heq & Hin)%list_elem_of_fmap. simplify_eq/=.
    unfold rectangular in Hrect. rewrite Forall_forall in Hrect.
    apply cell_of_fresh; [done|]. by apply (Hrect _ Hin).
  - unfold timestamps. simpl. rewrite <- list_fmap_compose. by apply list_fmap_ext.
Qed.

(** C4 as stated fails: the table already has an 'SR_Synoptic' column with
    an old value, the lookup finds no station, the run exits with 0 and the
    CSV written still holds the old value. *)
Example main_without_station_keeps_old_column :
  let df := {| columns := ["O3"; "SR_Synoptic"]%string;
               rows := [(1604192400, [Some (3 # 100)%Q; Some 412%Q])] |} in
  let metadata : Metadata string :=
    {| site_name := Some "Hawthorne"%string; site_id := "3006"; county_code := "035";
       params := scraper.required_cols;
       details := Some [("O3"%string,
                         Details [("latitude"%string, Scalar "40.73"%string);
                                  ("longitude"%string, Scalar "-111.87"%string)])];
       raw_file := "data/Hawthorne_3006_raw.csv";
       cleaned_file := "data/Hawthorne_3006_cleaned.csv";
       synoptic_source := None |} in
  let no_station : wire (payload SynopticScraper.Station) :=
    [Answer 200 (Object (Some []))] in
  let run := SynopticScraper.main (λ _, None) (Some "token"%string)
               (Some (df, metadata)) no_station [] "2026-01-01T00:00:00" in
  (SynopticScraper.find_nearest_station no_station).1 = None
  ∧ SynopticScraper.exit_code run = 0
  ∧ SynopticScraper.csv_written run = Some df
  ∧ cell_of (columns df) [Some (3 # 100)%Q; Some 412%Q] "SR_Synoptic" = Some 412%Q
  ∧ ¬ all_missing "SR_Synoptic" df.
Proof.
  split_and!; [reflexivity..|].
  intros [_ Hall].
  specialize (Hall 1604192400 [Some (3 # 100)%Q; Some 412%Q]).
  discriminate Hall. by left.
Qed.

(** C4, amended.  When the lookup returns no station, the run exits with 0,
    writes the CSV and leaves the metadata document as it was.  A table
    without an 'SR_Synoptic' column gets one whose cells are all missing;
    a table that has the column already is written back unchanged. *)
Theorem main_without_station {V} (tzdb : string → option (Z → Z))
    (token : string) (df : DataFrame) (metadata : Metadata V)
    (lat lon : collapsed V)
    (metadata_wire : wire (payload SynopticScraper.Station))
    (timeseries_wire : wire SynopticScraper.timeseries_payload) (now : string) :
  token ≠ ""%string →
  SynopticScraper.location (default [] (details metadata)) = Some (lat, lon) →
  SynopticScraper.is_null lat = false →
  SynopticScraper.is_null lon = false →
  (SynopticScraper.find_nearest_station metadata_wire).1 = None →
  rectangular df →
  let run := SynopticScraper.main tzdb (Some token) (Some (df, metadata))
               metadata_wire timeseries_wire now in
  SynopticScraper.exit_code run = 0
  ∧ SynopticScraper.json_written run = None
  ∧ ∃ out, SynopticScraper.csv_written run = Some out
      ∧ timestamps out = timestamps df
      ∧ ("SR_Synoptic"%string ∉ columns df → all_missing "SR_Synoptic" out)
      ∧ ("SR_Synoptic"%string ∈ columns df → out = df).
Proof.
  intros Htoken Hloc Hlat Hlon Hnone Hrect run. subst run.
  unfold SynopticScraper.main.
  rewrite bool_decide_eq_false_2 by done.
  rewrite Hloc, Hlat, Hlon. simpl.
  destruct (SynopticScraper.find_nearest_station metadata_wire) as [found log1].
  simpl in Hnone. subst found. simpl.
  split_and!; [done..|].
  eexists. split; [done|].
  unfold has_column.
  destruct (decide ("SR_Synoptic"%string ∈ columns df)) as [Hin|Hnin].
  - rewrite bool_decide_eq_true_2 by done. by split_and!.
  - rewrite bool_decide_eq_false_2 by done.
    destruct (assign_none_new "SR_Synoptic" df Hnin Hrect) as [Hall Hts].
    by split_and!.
Qed.

(** C4, amended, at a table without the column and a lookup answered
    with 404. *)
Lemma main_without_station_witness :
  let df := {| columns := ["O3"%string];
               rows := [(1604192400, [Some (3 # 100)%Q])] |} in
  let metadata : Metadata string :=
    {| site_name := Some "Hawthorne"%string; site_id := "3006"; county_code := "035";
       params := scraper.required_cols;
       details := Some [("O3"%string,
                         Details [("latitude"%string, Scalar "40.73"%string);
                                  ("longitude"%string, Scalar "-111.87"%string)])];
       raw_file := "data/Hawthorne_3006_raw.csv";
       cleaned_file := "data/Hawthorne_3006_cleaned.csv";
       synoptic_source := None |} in
  let run := SynopticScraper.main (λ _, None) (Some "token"%string)
               (Some (df, metadata)) [Answer 404 NotJson] [] "2026-01-01T00:00:00" in
  SynopticScraper.exit_code run = 0
  ∧ SynopticScraper.json_written run = None
  ∧ ∃ out, SynopticScraper.csv_written run = Some out
      ∧ timestamps out = timestamps df
      ∧ ("SR_Synoptic"%string ∉ columns df → all_missing "SR_Synoptic" out)
      ∧ ("SR_Synoptic"%string ∈ columns df → out = df).
Proof.
  intros df metadata.
  apply (main_without_station (λ _, None) "token" df metadata
           (Scalar "40.73"%string) (Scalar "-111.87"%string)
           [Answer 404 NotJson] [] "2026-01-01T00:00:00").
  - discriminate.
  - reflexivity.
  - reflexivity.
  - reflexivity.
  - reflexivity.
  - repeat constructor.
Defined.

(** ** Fusion with a series that has no repeated timestamp *)

Lemma assign_none_all_missing (name : string) (df : DataFrame) :
  rectangular df → all_missing name (assign_none name df).
Proof.
  intros Hrect.
  destruct (decide (name ∈ columns df)) as [Hin|Hnin];
    [|by apply assign_none_new].
  unfold assign_none.
  destruct (list_find (λ c, c = name) (columns df)) as [[i c]|] eqn:Hfind.
  - split; [done|]. cbn [rows columns].
    intros t cells ([t' old] & Heq & _)%list_elem_of_fmap.
    cbn [fst snd] in Heq. injection Heq as -> ->.
    unfold cell_of. rewrite Hfind.
    destruct (decide (i < length old)%nat).
    + by rewrite list_lookup_insert_eq.
    + by rewrite list_insert_ge, lookup_ge_None_2 by lia.
  - apply list_find_None in Hfind. rewrite Forall_forall in Hfind.
    by destruct (Hfind name Hin).
Qed.

(** X1, the part of C1 that holds.  When no timestamp occurs twice in the
    supplementary series, fusion keeps the rows of the canonical table: the
    same timestamps in the same order, hence as many rows, and a row whose
    timestamp the series does not have gets a missing value in the fused
    column. *)
Theorem fuse_data_keeps_rows (C : DataFrame) (S : SynopticScraper.Series) :
  NoDup S.*1 → rectangular C →
  let R := SynopticScraper.fuse_data C S in
  timestamps R = timestamps C
  ∧ length (rows R) = length (rows C)
  ∧ ∀ t cells, (t, cells) ∈ rows R → t ∉ S.*1 →
      cell_of (columns R) cells "SR_Synoptic" = None.
Proof.
  intros Hnd Hrect R.
  assert (Hts : timestamps R = timestamps C) by by apply fuse_data_timestamps.
  split_and!.
  - done.
  - apply (f_equal length) in Hts. unfold timestamps in Hts.
    by rewrite !length_fmap in Hts.
  - intros t cells Hin Ht. subst R. unfold SynopticScraper.fuse_data in *.
    destruct S as [|s S].
    + by apply (assign_none_all_missing "SR_Synoptic" C Hrect) in Hin.
    + set (S' := s :: S) in *. clearbody S'.
      apply elem_of_merge_left in Hin as (old & v & Hold & -> & Hv).
      pose proof (rectangular_drop_columns
                    (SynopticScraper.contains "SR_Synoptic") C Hrect) as Hrect'.
      unfold rectangular in Hrect'. rewrite Forall_forall in Hrect'.
      specialize (Hrect' _ Hold). cbn [snd columns drop_columns] in Hrect'.
      cbn [columns merge_left drop_columns].
      rewrite cell_of_fresh.
      * destruct Hv as [Hv|[-> _]]; [|done].
        destruct Ht. by apply (list_elem_of_fmap_2 fst) in Hv.
      * rewrite drop_self. apply fused_name_dropped.
      * done.
Qed.

(** X1 at a table of two rows and a series that matches the second. *)
Lemma fuse_data_keeps_rows_witness :
  let C := {| columns := ["O3"; "SR_Synoptic"]%string;
              rows := [(1604192400, [Some (3 # 100)%Q; Some 412%Q]);
                       (1604196000, [Some (4 # 100)%Q; Some 380%Q])] |} in
  let S := [(1604196000, Some 9%Q); (1604199600, Some 2%Q)] in
  timestamps (SynopticScraper.fuse_data C S) = [1604192400; 1604196000]
  ∧ length (rows (SynopticScraper.fuse_data C S)) = 2%nat
  ∧ ∀ t cells, (t, cells) ∈ rows (SynopticScraper.fuse_data C S) → t ∉ S.*1 →
      cell_of (columns (SynopticScraper.fuse_data C S)) cells "SR_Synoptic" = None.
Proof.
  intros C S.
  apply (fuse_data_keeps_rows C S).
  - apply (bool_decide_unpack _). by vm_compute.
  - repeat constructor.
Defined.


(** ** The retrying session *)

Lemma urlopen_retries {B} (forcelist : list Z) (fails : list (attempt B)) :
  ∀ (total connect read : nat) (status : Z) (body : B) (rest : wire B),
  Forall (retriable forcelist) fails →
  (length fails ≤ total)%nat → (length fails ≤ connect)%nat →
  (length fails ≤ read)%nat → status ∉ forcelist →
  urlopen true forcelist total connect read (fails ++ Answer status body :: rest)
  = (Response status body, S (length fails)).
Proof.
  induction fails as [|a fails IH]; intros total connect read status body rest
    Hfails Ht Hc Hr Hstatus.
  - destruct total; simpl; by rewrite bool_decide_eq_false_2.
  - apply Forall_cons in Hfails as [Ha Hfails]. simpl in Ht, Hc, Hr.
    destruct total as [|total]; [lia|].
    destruct connect as [|connect]; [lia|].
    destruct read as [|read]; [lia|].
    destruct a as [code b| |]; simpl in *.
    + rewrite bool_decide_eq_true_2 by done.
      rewrite IH by (done || lia). done.
    + rewrite IH by (done || lia). done.
    + rewrite IH by (done || lia). done.
Qed.

Lemma urlopen_gives_up {B} (forcelist : list Z) (total : nat) :
  ∀ (connect read : nat) (fails : list (attempt B)) (rest : wire B),
  Forall (retriable forcelist) fails →
  length fails = S total → (total ≤ connect)%nat → (total ≤ read)%nat →
  urlopen true forcelist total connect read (fails ++ rest) = (Raised, S total).
Proof.
  induction total as [|total IH]; intros connect read fails rest Hfails Hlen Hc Hr.
  - destruct fails as [|a [|? ?]]; try discriminate.
    apply Forall_cons in Hfails as [Ha _].
    destruct a as [code b| |]; simpl in *; [|by destruct connect|done].
    by rewrite bool_decide_eq_true_2.
  - destruct fails as [|a fails]; [discriminate|].
    apply Forall_cons in Hfails as [Ha Hfails]. injection Hlen as Hlen.
    destruct connect as [|connect]; [lia|].
    destruct read as [|read]; [lia|].
    destruct a as [code b| |]; simpl in *.
    + rewrite bool_decide_eq_true_2 by done.
      rewrite IH by (done || lia). done.
    + rewrite IH by (done || lia). done.
    + rewrite IH by (done || lia). done.
Qed.

Lemma urlopen_tries {B} (idempotent : bool) (forcelist : list Z) (total : nat) :
  ∀ (connect read : nat) (w : wire B),
  (1 ≤ (urlopen idempotent forcelist total connect read w).2 ≤ S total)%nat.
Proof.
  induction total as [|total IH]; intros connect read w.
  - destruct w as [|[code b| |] w]; simpl; repeat case_match; simpl; lia.
  - destruct w as [|[code b| |] w]; simpl.
    + destruct connect as [|connect]; simpl; [lia|].
      specialize (IH connect read []). destruct (urlopen _ _ _ _ _ _). simpl in *. lia.
    + destruct (idempotent && _); simpl; [|lia].
      specialize (IH connect read w). destruct (urlopen _ _ _ _ _ _). simpl in *. lia.
    + destruct connect as [|connect]; simpl; [lia|].
      specialize (IH connect read w). destruct (urlopen _ _ _ _ _ _). simpl in *. lia.
    + destruct idempotent; simpl; [|lia].
      destruct read as [|read]; simpl; [lia|].
      specialize (IH connect read w). destruct (urlopen _ _ _ _ _ _). simpl in *. lia.
Qed.

(** [requests.get] makes one try, whatever it meets. *)
Lemma requests_get_one_try {B} (w : wire B) : (requests_get w).2 = 1%nat.
Proof.
  unfold requests_get, get. simpl.
  destruct w as [|[code b| |] w]; reflexivity.
Qed.

(** ** The requests of the acquisition script *)

Lemma sent_through_app (session : Session) (l1 l2 : list call) :
  sent_through session l1 → sent_through session l2 →
  sent_through session (l1 ++ l2).
Proof. unfold sent_through. intros. by apply Forall_app. Qed.

Lemma sent_through_logged (e : endpoint) (n : nat) (log : list call) :
  sent_through scraper.get_session log →
  sent_through scraper.get_session (scraper.logged e n :: log).
Proof. unfold sent_through. intros. by constructor. Qed.

Create HintDb log.
#[local] Hint Resolve sent_through_app sent_through_logged : log.
#[local] Hint Extern 1 (sent_through _ []) => constructor : log.

Lemma sites_of_counties_log {V} (net : scraper.AQS V) (counties : list scraper.County) :
  ∀ all_sites,
  sent_through scraper.get_session (scraper.sites_of_counties net counties all_sites).2.
Proof.
  induction counties as [|county rest IH]; intros all_sites; simpl; [constructor|].
  destruct (get _ _) as [[status body|] n]; simpl; [|eauto with log].
  case_bool_decide.
  - destruct body as [|data]; simpl; [eauto with log|].
    specialize (IH (all_sites ++ map (scraper.tag_site county) (default [] data))).
    destruct (scraper.sites_of_counties _ _ _). simpl in *. eauto with log.
  - specialize (IH all_sites).
    destruct (scraper.sites_of_counties _ _ _). simpl in *. eauto with log.
Qed.

Lemma get_sites_log {V} (net : scraper.AQS V) :
  sent_through scraper.get_session (scraper.get_sites net).2.
Proof.
  unfold scraper.get_sites.
  destruct (get _ _) as [[status body|] n]; simpl; [|eauto with log].
  case_bool_decide; simpl; [eauto with log|].
  destruct body as [|data]; simpl; [eauto with log|].
  pose proof (sites_of_counties_log net (default [] data) []) as Hlog.
  destruct (scraper.sites_of_counties _ _ _) as [[all_sites|] log]; simpl in *;
    eauto with log.
Qed.

Lemma check_site_monitors_log {V} (net : scraper.AQS V) (county site : string) :
  (scraper.check_site_monitors net county site).2
  = [scraper.logged (MonitorsBySite county site)
       (get scraper.get_session (scraper.monitors_bySite net county site)).2].
Proof.
  unfold scraper.check_site_monitors.
  destruct (get _ _) as [[status body|] n]; simpl; [|done].
  case_bool_decide; simpl; [done|]. by destruct body.
Qed.

Lemma fetch_hourly_data_log {V} (net : scraper.AQS V) (county site : string)
    (bdate edate : Z) :
  (scraper.fetch_hourly_data net county site bdate edate).2
  = [scraper.logged (SampleDataBySite county site bdate edate)
       (get scraper.get_session (scraper.sampleData_bySite net county site bdate edate)).2].
Proof.
  unfold scraper.fetch_hourly_data.
  destruct (get _ _) as [[status body|] n]; simpl; [|done].
  case_bool_decide; simpl; [done|]. by destruct body.
Qed.

Lemma fetch_years_log {V} (net : scraper.AQS V) (now : scraper.Now)
    (county site : string) (years : list Z) :
  sent_through scraper.get_session (scraper.fetch_years net now county site years).2.
Proof.
  induction years as [|y rest IH]; simpl; [constructor|].
  destruct (_ && _); simpl; [constructor|].
  pose proof (fetch_hourly_data_log net county site (y * 10000 + 101)
    (if bool_decide (y = scraper.year now)
     then (y * 10000 + 1231) `min` scraper.strftime_Ymd now
     else y * 10000 + 1231)) as Hlog.
  destruct (scraper.fetch_hourly_data _ _ _ _ _) as [data log].
  destruct (scraper.fetch_years _ _ _ _ _) as [more log'].
  simpl in *. subst log. eauto with log.
Qed.

Lemma process_site_log {V} `{EqDecision V} (to_datetime : string → Z)
    (net : scraper.AQS V) (now : scraper.Now) (site_info : scraper.Site) :
  sent_through scraper.get_session (scraper.process_site to_datetime net now site_info).2.
Proof.
  unfold scraper.process_site.
  pose proof (check_site_monitors_log net (scraper.site_county_code site_info)
                (scraper.code site_info)) as Hlog1.
  destruct (scraper.check_site_monitors _ _ _) as [[has_all found] log1].
  simpl in Hlog1. subst log1.
  destruct has_all; simpl; [|eauto with log].
  pose proof (fetch_years_log net now (scraper.site_county_code site_info)
                (scraper.code site_info)
                (seqZ scraper.START_YEAR (scraper.year now + 1 - scraper.START_YEAR)))
    as Hlog2.
  destruct (scraper.fetch_years _ _ _ _ _) as [all_records log2].
  destruct all_records; simpl in *; eauto with log.
Qed.

Lemma main_log {V} `{EqDecision V} (to_datetime : string → Z)
    (net : scraper.AQS V) (now : scraper.Now) :
  sent_through scraper.get_session (scraper.main to_datetime net now).2.
Proof.
  unfold scraper.main.
  pose proof (get_sites_log net) as Hlog.
  destruct (scraper.get_sites net) as [sites log]. simpl in Hlog.
  destruct sites as [|s sites]; [done|].
  apply sent_through_app; [done|].
  unfold sent_through. apply Forall_concat, Forall_fmap, Forall_fmap.
  apply Forall_forall. intros site _. apply process_site_log.
Qed.

(** ** The capability filter *)

Lemma required_codes : scraper.PARAMS.*1 = ["44201"; "42601"; "42602"; "63301"; "62101"]%string.
Proof. reflexivity. Qed.

Lemma has_all_iff (codes : list string) :
  scraper.PARAMS.*1 ⊆ remove_dups (filter (λ c, c ∈ scraper.PARAMS.*1) codes)
  ↔ ∀ c, c ∈ scraper.PARAMS.*1 → c ∈ codes.
Proof.
  split.
  - intros Hsub c Hc. specialize (Hsub c Hc).
    apply elem_of_remove_dups, list_elem_of_filter in Hsub. tauto.
  - intros Hall c Hc. apply elem_of_remove_dups, list_elem_of_filter. auto.
Qed.

(** C5.  The capability check accepts a site exactly when every required
    parameter code occurs among the codes observed in the site's monitor
    record, and a site that fails the check gets no files and no request
    other than the one for its monitors: no sample is requested for it. *)
Theorem check_site_monitors_accepts_iff {V} `{EqDecision V} (net : scraper.AQS V) :
  (∀ county site,
     (scraper.check_site_monitors net county site).1.1 = true
     ↔ ∀ c, c ∈ ["44201"; "42601"; "42602"; "63301"; "62101"]%string →
            c ∈ scraper.observed_codes net county site)
  ∧ (∀ (to_datetime : string → Z) (now : scraper.Now) (site_info : scraper.Site),
       (scraper.check_site_monitors net (scraper.site_county_code site_info)
          (scraper.code site_info)).1.1 = false →
       scraper.process_site to_datetime net now site_info
       = ([], [scraper.logged
                 (MonitorsBySite (scraper.site_county_code site_info)
                                 (scraper.code site_info))
                 (get scraper.get_session
                    (scraper.monitors_bySite net (scraper.site_county_code site_info)
                       (scraper.code site_info))).2])).
Proof.
  split.
  - intros county site. rewrite <- required_codes.
    assert (Hnone : ¬ ∀ c, c ∈ scraper.PARAMS.*1 → c ∈ @nil string).
    { intros Hall. specialize (Hall "44201"%string).
      apply not_elem_of_nil in Hall; [done|]. rewrite required_codes. by left. }
    unfold scraper.check_site_monitors, scraper.observed_codes.
    destruct (get _ _) as [[status body|] n]; simpl; [|by split].
    destruct body as [|data]; simpl.
    + case_bool_decide; simpl; by split.
    + destruct (decide (status = 200)) as [->|Hstatus].
      * simpl. rewrite bool_decide_eq_true. apply has_all_iff.
      * rewrite (bool_decide_eq_true_2 (status ≠ 200)) by done.
        rewrite (bool_decide_eq_false_2 (status = 200)) by done. simpl. by split.
  - intros to_datetime now site_info Hcheck.
    unfold scraper.process_site.
    pose proof (check_site_monitors_log net (scraper.site_county_code site_info)
                  (scraper.code site_info)) as Hlog.
    destruct (scraper.check_site_monitors _ _ _) as [[has_all found] log1].
    simpl in *. subst. done.
Qed.

(** ** Sites without samples *)

(** C10.  A site that passes the capability check and for which the yearly
    requests return no sample at all gets no file, and the run goes on: the
    files of the run are those of the other sites, in their order. *)
Theorem main_skips_site_without_samples {V} `{EqDecision V}
    (to_datetime : string → Z) (net : scraper.AQS V) (now : scraper.Now)
    (before after : list scraper.Site) (site_info : scraper.Site) :
  (scraper.get_sites net).1 = before ++ site_info :: after →
  (scraper.check_site_monitors net (scraper.site_county_code site_info)
     (scraper.code site_info)).1.1 = true →
  (scraper.fetch_years net now (scraper.site_county_code site_info)
     (scraper.code site_info)
     (seqZ scraper.START_YEAR (scraper.year now + 1 - scraper.START_YEAR))).1 = [] →
  (scraper.process_site to_datetime net now site_info).1 = []
  ∧ (scraper.main to_datetime net now).1
    = flat_map (λ s, (scraper.process_site to_datetime net now s).1) (before ++ after).
Proof.
  intros Hsites Hcheck Hnone.
  assert (Hsite : (scraper.process_site to_datetime net now site_info).1 = []).
  { unfold scraper.process_site.
    destruct (scraper.check_site_monitors _ _ _) as [[has_all found] log1].
    simpl in Hcheck. subst has_all. simpl.
    destruct (scraper.fetch_years _ _ _ _ _) as [all_records log2].
    simpl in Hnone. by subst all_records. }
  split; [done|].
  unfold scraper.main.
  destruct (scraper.get_sites net) as [sites log]. simpl in Hsites. subst sites.
  destruct (before ++ site_info :: after) as [|s0 sites0] eqn:Heq.
  { by destruct before. }
  rewrite <- Heq. simpl. clear Heq.
  rewrite !flat_map_concat_map, <- !list_fmap_compose.
  rewrite !fmap_app, fmap_cons, !concat_app, concat_cons. simpl.
  by rewrite Hsite.
Qed.

(** C10 on a network with one site, whose monitors cover the required
    parameters and whose yearly requests return no sample. *)
Lemma main_skips_site_without_samples_witness :
  (scraper.process_site scraper.iso_datetime (Fixture.net []) Fixture.now Fixture.site).1 = []
  ∧ (scraper.main scraper.iso_datetime (Fixture.net []) Fixture.now).1 = [].
Proof.
  apply (main_skips_site_without_samples scraper.iso_datetime (Fixture.net [])
           Fixture.now [] [] Fixture.site).
  - reflexivity.
  - reflexivity.
  - vm_compute. reflexivity.
Defined.

(** ** The requests of the fusion script *)

Lemma find_nearest_station_log (w : wire (payload SynopticScraper.Station)) :
  Forall plain_call (SynopticScraper.find_nearest_station w).2.
Proof.
  unfold SynopticScraper.find_nearest_station.
  pose proof (requests_get_one_try w) as Hone.
  destruct (requests_get w) as [o n]. simpl in Hone. subst n.
  repeat case_match; simpl; by repeat constructor.
Qed.

Lemma fetch_synoptic_data_log (tzdb : string → option (Z → Z))
    (station_timezone : option string) (w : wire SynopticScraper.timeseries_payload) :
  Forall plain_call (SynopticScraper.fetch_synoptic_data tzdb station_timezone w).2.
Proof.
  unfold SynopticScraper.fetch_synoptic_data.
  pose proof (requests_get_one_try w) as Hone.
  destruct (requests_get w) as [o n]. simpl in Hone. subst n.
  repeat case_match; simpl; by repeat constructor.
Qed.

Lemma synoptic_main_log {V} (tzdb : string → option (Z → Z))
    (MESOWEST_TOKEN : option string) (loaded : option (DataFrame * Metadata V))
    (metadata_wire : wire (payload SynopticScraper.Station))
    (timeseries_wire : wire SynopticScraper.timeseries_payload) (now : string) :
  Forall plain_call
    (SynopticScraper.calls
       (SynopticScraper.main tzdb MESOWEST_TOKEN loaded metadata_wire timeseries_wire now)).
Proof.
  unfold SynopticScraper.main.
  destruct MESOWEST_TOKEN as [token|]; [|constructor].
  case_bool_decide; [constructor|].
  destruct loaded as [[df metadata]|]; [|constructor].
  destruct (SynopticScraper.location _) as [[lat lon]|]; [|constructor].
  destruct (_ || _); [constructor|].
  pose proof (find_nearest_station_log metadata_wire) as Hlog1.
  destruct (SynopticScraper.find_nearest_station metadata_wire) as [found log1].
  simpl in Hlog1.
  destruct found as [[station_id station_meta]|]; [|done].
  case_bool_decide; [done|].
  destruct (rows df); [done|].
  pose proof (fetch_synoptic_data_log tzdb (SynopticScraper.TIMEZONE station_meta)
                timeseries_wire) as Hlog2.
  destruct (SynopticScraper.fetch_synoptic_data _ _ _) as [result log2].
  simpl in Hlog2.
  destruct result; simpl; by apply Forall_app.
Qed.

(** ** Which requests are retried *)

Lemma get_get_session {B} (w : wire B) :
  get scraper.get_session w = urlopen true [429; 500; 502; 503; 504] 5 5 5 w.
Proof. reflexivity. Qed.



(** ** The yearly windows *)

Lemma fetch_years_all {V} (net : scraper.AQS V) (now : scraper.Now)
    (county site : string) (years : list Z) :
  scraper.year now * 10000 + 101 ≤ scraper.strftime_Ymd now →
  let edate := λ y, if bool_decide (y = scraper.year now)
                    then (y * 10000 + 1231) `min` scraper.strftime_Ymd now
                    else y * 10000 + 1231 in
  scraper.fetch_years net now county site years
  = (flat_map (λ y, (scraper.fetch_hourly_data net county site
                       (y * 10000 + 101) (edate y)).1) years,
     flat_map (λ y, (scraper.fetch_hourly_data net county site
                       (y * 10000 + 101) (edate y)).2) years).
Proof.
  intros Htoday edate.
  induction years as [|y rest IH]; [done|].
  cbn [scraper.fetch_years flat_map].
  assert (Hgo : bool_decide (y = scraper.year now)
                && bool_decide (y * 10000 + 101 > scraper.strftime_Ymd now) = false).
  { destruct (decide (y = scraper.year now)) as [->|Hy].
    - rewrite (bool_decide_eq_false_2 (_ > _)) by lia. apply andb_false_r.
    - by rewrite (bool_decide_eq_false_2 (y = _)) by done. }
  rewrite Hgo. fold (edate y).
  destruct (scraper.fetch_hourly_data _ _ _ _ _) as [data log].
  rewrite IH. done.
Qed.




(** ** The order of column names *)

Lemma ascii_compare_refl (a : ascii) : Ascii.compare a a = Eq.
Proof. unfold Ascii.compare. apply N.compare_refl. Qed.

Lemma ascii_compare_lt_trans (a b c : ascii) :
  Ascii.compare a b = Lt → Ascii.compare b c = Lt → Ascii.compare a c = Lt.
Proof.
  unfold Ascii.compare. rewrite !N.compare_lt_iff. apply N.lt_trans.
Qed.

Lemma string_leb_trans (a b c : string) :
  String.leb a b = true → String.leb b c = true → String.leb a c = true.
Proof.
  unfold String.leb. revert b c.
  induction a as [|x a IH]; intros [|y b] [|z c]; simpl; try done.
  destruct (Ascii.compare x y) eqn:Hxy; [|clear IH|done].
  - apply Ascii.compare_eq_iff in Hxy as ->.
    destruct (Ascii.compare y z) eqn:Hyz; [|done..]. apply IH.
  - destruct (Ascii.compare y z) eqn:Hyz; [| |done].
    + apply Ascii.compare_eq_iff in Hyz as ->. by rewrite Hxy.
    + by rewrite (ascii_compare_lt_trans x y z).
Qed.

#[local] Instance name_le_trans : Transitive name_le.
Proof. intros a b c. apply string_leb_trans. Qed.

#[local] Instance name_le_total : Total name_le.
Proof. intros a b. apply String.leb_total. Qed.

#[local] Instance name_le_antisym : AntiSymm (=) name_le.
Proof. intros a b. apply String.leb_antisym. Qed.

Lemma StronglySorted_filter {A} (R : relation A) (P : A → Prop)
    `{∀ x, Decision (P x)} (l : list A) :
  StronglySorted R l → StronglySorted R (filter P l).
Proof.
  induction 1 as [|x l Hl IH Hx]; [constructor|].
  rewrite filter_cons. destruct (decide (P x)); [|done].
  constructor; [done|].
  apply Forall_forall. intros y [_ Hy]%list_elem_of_filter.
  rewrite Forall_forall in Hx. auto.
Qed.

(** A sorted list without repetition is determined by its elements. *)
Lemma sorted_by_elements {A} (R : relation A) `{!Transitive R, !AntiSymm (=) R}
    (l k : list A) :
  StronglySorted R l → StronglySorted R k → NoDup l → NoDup k →
  (∀ x, x ∈ l ↔ x ∈ k) → l = k.
Proof.
  intros Hl Hk Hndl Hndk Hiff.
  apply (StronglySorted_unique R); [done..|].
  by apply NoDup_Permutation.
Qed.

(** ** The pivoted table *)

Lemma cell_of_fmap (cols : list string) (f : string → option Q) (c : string) :
  c ∈ cols → cell_of cols (map f cols) c = f c.
Proof.
  intros Hc. unfold cell_of.
  destruct (list_find (λ c', c' = c) cols) as [[i c']|] eqn:Hfind.
  - apply list_find_Some in Hfind as (Hi & -> & _).
    change (map f cols) with (f <$> cols).
    by rewrite list_lookup_fmap, Hi.
  - apply list_find_None in Hfind. rewrite Forall_forall in Hfind.
    by destruct (Hfind c Hc).
Qed.

Lemma cell_of_absent (cols : list string) (cells : list (option Q)) (c : string) :
  c ∉ cols → cell_of cols cells c = None.
Proof.
  intros Hc. unfold cell_of.
  destruct (list_find (λ c', c' = c) cols) as [[i c']|] eqn:Hfind; [|done].
  apply list_find_Some in Hfind as (Hi & -> & _).
  destruct Hc. by eapply list_elem_of_lookup_2.
Qed.

Lemma reindex_cell (names : list string) (df : DataFrame) (t : Z)
    (cells : list (option Q)) (c : string) :
  (t, cells) ∈ rows (reindex names df) → c ∈ names →
  ∃ old, (t, old) ∈ rows df ∧ cell_of names cells c = cell_of (columns df) old c.
Proof.
  unfold reindex. cbn [rows].
  intros ([t' old] & Heq & Hin)%list_elem_of_fmap Hc.
  cbn [fst snd] in Heq. injection Heq as -> ->.
  exists old. split; [done|]. by apply cell_of_fmap.
Qed.

Section ReshaperProperties.

Context {V : Type} `{EqDecision V}.
Variable to_datetime : string → Z.

Lemma param_name_required (s : scraper.RawSample V) (c : string) :
  scraper.param_name s = Some c → c ∈ ["NO"; "NO2"; "O3"; "SR"; "Temp"]%string.
Proof.
  unfold scraper.param_name, scraper.PARAMS. simpl.
  repeat case_bool_decide; intros; simplify_eq;
    apply (bool_decide_unpack _); by vm_compute.
Qed.

Lemma elem_of_group_keys (df : list (scraper.RawSample V)) (t : Z) (c : string) :
  (t, c) ∈ omap (scraper.group_key to_datetime) df
  ↔ ∃ s, s ∈ df ∧ scraper.datetime to_datetime s = t
         ∧ scraper.param_name s = Some c
         ∧ is_Some (scraper.sample_measurement s).
Proof.
  rewrite list_elem_of_omap. unfold scraper.group_key.
  split.
  - intros (s & Hs & Hkey). exists s.
    destruct (scraper.param_name s) as [c'|]; [|done].
    destruct (scraper.sample_measurement s) as [m|]; [|done].
    simplify_eq. eauto.
  - intros (s & Hs & <- & Hc & [m Hm]). exists s.
    by rewrite Hc, Hm.
Qed.

Lemma pivot_table_index (df : list (scraper.RawSample V)) :
  timestamps (scraper.pivot_table to_datetime df)
  = merge_sort Z.le (unique (omap (scraper.group_key to_datetime) df).*1).
Proof.
  unfold timestamps, scraper.pivot_table. simpl.
  rewrite <- list_fmap_compose. apply list_fmap_id.
Qed.

Lemma pivot_table_columns_sorted (df : list (scraper.RawSample V)) :
  columns (scraper.pivot_table to_datetime df)
  = filter (scraper.has_data df) ["NO"; "NO2"; "O3"; "SR"; "Temp"]%string.
Proof.
  unfold scraper.pivot_table. simpl.
  apply (sorted_by_elements name_le).
  - apply StronglySorted_merge_sort; apply _.
  - apply StronglySorted_filter.
    repeat (apply SSorted_cons || apply SSorted_nil
            || apply Forall_cons_2 || apply Forall_nil_2); reflexivity.
  - rewrite merge_sort_Permutation. apply NoDup_unique.
  - apply NoDup_filter. apply (bool_decide_unpack _). by vm_compute.
  - intros c. rewrite merge_sort_Permutation, elem_of_unique, list_elem_of_filter.
    rewrite list_elem_of_fmap. unfold scraper.has_data. rewrite Exists_exists.
    split.
    + intros ([t c'] & -> & Hkey). simpl.
      apply elem_of_group_keys in Hkey as (s & Hs & _ & Hc & Hm).
      split; [eauto|]. by eapply param_name_required.
    + intros [(s & Hs & Hc & Hm) _].
      exists (scraper.datetime to_datetime s, c). split; [done|].
      apply elem_of_group_keys. eauto.
Qed.

(** C3, amended.  The raw CSV of a site is the pivoted table, and the
    columns of that table are the required channels that have a sample
    with a measurement, in the order NO, NO2, O3, SR, Temp; a channel
    without one is left out.  The table reindexed for the cleaned view has
    the five columns O3, NO, NO2, SR, Temp, and a channel left out of the
    pivoted table is an all-missing column of it. *)
Theorem raw_csv_columns (df : list (scraper.RawSample V)) :
  let df_pivoted := scraper.pivot_table to_datetime df in
  (∀ (net : scraper.AQS V) (now : scraper.Now) (site_info : scraper.Site),
     let records :=
       (scraper.fetch_years net now (scraper.site_county_code site_info)
          (scraper.code site_info)
          (seqZ scraper.START_YEAR (scraper.year now + 1 - scraper.START_YEAR))).1 in
     (scraper.process_site to_datetime net now site_info).1 = []
     ∨ ∃ raw_file cleaned_file meta_file metadata,
         (scraper.process_site to_datetime net now site_info).1
         = [(raw_file, scraper.Csv (scraper.pivot_table to_datetime records));
            (cleaned_file,
             scraper.Csv (scraper.cleaned (scraper.pivot_table to_datetime records)));
            (meta_file, scraper.Json metadata)])
  ∧ columns df_pivoted
    = filter (scraper.has_data df) ["NO"; "NO2"; "O3"; "SR"; "Temp"]%string
  ∧ columns (reindex scraper.required_cols df_pivoted)
    = ["O3"; "NO"; "NO2"; "SR"; "Temp"]%string
  ∧ (∀ c, c ∈ scraper.required_cols → ¬ scraper.has_data df c →
       all_missing c (reindex scraper.required_cols df_pivoted)).
Proof.
  intros df_pivoted. split_and!.
  - intros net now site_info records. subst records.
    unfold scraper.process_site.
    destruct (scraper.check_site_monitors _ _ _) as [[has_all found] log1].
    destruct has_all; simpl; [|by left].
    destruct (scraper.fetch_years _ _ _ _ _) as [all_records log2].
    destruct all_records as [|r records]; simpl; [by left|].
    right. by repeat eexists.
  - apply pivot_table_columns_sorted.
  - done.
  - intros c Hc Hdata. split; [done|].
    intros t cells Hrow.
    destruct (reindex_cell _ _ _ _ c Hrow Hc) as (old & _ & Hcell).
    change (columns (reindex scraper.required_cols df_pivoted))
      with scraper.required_cols.
    rewrite Hcell. apply cell_of_absent. subst df_pivoted.
    rewrite pivot_table_columns_sorted, list_elem_of_filter. tauto.
Qed.

(** C7, amended.  The pivoted table has one row for each distinct timestamp
    at which some sample of a required channel carries a measurement, in
    ascending order; a timestamp whose samples all lack a measurement has no
    row.  In the row of a timestamp, the cell of a channel is the arithmetic
    mean of the measurements of the samples with that timestamp and
    channel, and is missing when there is none. *)
Theorem pivot_table_rows (df : list (scraper.RawSample V)) :
  let table := scraper.pivot_table to_datetime df in
  NoDup (timestamps table)
  ∧ StronglySorted Z.le (timestamps table)
  ∧ (∀ t, t ∈ timestamps table
          ↔ ∃ s, s ∈ df ∧ scraper.datetime to_datetime s = t
                 ∧ is_Some (scraper.param_name s)
                 ∧ is_Some (scraper.sample_measurement s))
  ∧ rectangular table
  ∧ (∀ t cells c, (t, cells) ∈ rows table → c ∈ columns table →
       cell_of (columns table) cells c
       = match omap scraper.sample_measurement
                 (filter (λ s, scraper.datetime to_datetime s = t
                               ∧ scraper.param_name s = Some c) df) with
         | [] => None
         | vs => Some (scraper.mean vs)
         end)
  ∧ (∀ vs, scraper.mean vs
           = (foldr Qplus 0 vs / inject_Z (Z.of_nat (length vs)))%Q).
Proof.
  intros table. subst table. split_and!.
  - rewrite pivot_table_index, merge_sort_Permutation. apply NoDup_unique.
  - rewrite pivot_table_index. apply StronglySorted_merge_sort; apply _.
  - intros t.
    rewrite pivot_table_index, merge_sort_Permutation, elem_of_unique, list_elem_of_fmap.
    split.
    + intros ([t' c] & -> & Hkey). simpl.
      apply elem_of_group_keys in Hkey as (s & Hs & Ht & Hc & Hm).
      exists s. rewrite Hc. eauto.
    + intros (s & Hs & Ht & [c Hc] & Hm).
      exists (t, c). split; [done|]. apply elem_of_group_keys. eauto.
  - unfold rectangular, scraper.pivot_table. simpl.
    apply Forall_fmap, Forall_forall. intros t _. simpl. by rewrite length_map.
  - intros t cells c Hrow Hc.
    unfold scraper.pivot_table in *. simpl in *.
    apply list_elem_of_fmap in Hrow as (t' & Heq & _). simplify_eq.
    by rewrite cell_of_fmap.
  - done.
Qed.

End ReshaperProperties.

(** C3 as stated fails: a site whose samples are all ozone samples gets a
    raw CSV with the single column O3. *)
Example raw_csv_leaves_out_channel_without_data :
  let records := [Fixture.sample "44201" "2020-11-01" "01:00" (Some (3 # 100)%Q);
                  Fixture.sample "44201" "2020-11-01" "02:00" (Some (4 # 100)%Q)] in
  ∃ df rest,
    (scraper.process_site scraper.iso_datetime (Fixture.net records) Fixture.now
       Fixture.site).1
    = ("data/Hawthorne_3006_raw.csv"%string, scraper.Csv df) :: rest
    ∧ columns df = ["O3"%string]
    ∧ timestamps df = [202011010100; 202011010200]
    ∧ columns df ≠ scraper.required_cols.
Proof.
  intros records. eexists _, _. split; [vm_compute; reflexivity|].
  split_and!; [reflexivity..|discriminate].
Qed.

(** C7 as stated fails: the second sample is the only one at 02:00 and has
    no measurement; its timestamp is observed and has no row. *)
Example pivot_table_drops_timestamp_without_measurement :
  let s1 := Fixture.sample "44201" "2020-11-01" "01:00" (Some (3 # 100)%Q) in
  let s2 := Fixture.sample "63301" "2020-11-01" "02:00" None in
  let table := scraper.pivot_table scraper.iso_datetime [s1; s2] in
  map (scraper.datetime scraper.iso_datetime) [s1; s2] = [202011010100; 202011010200]
  ∧ timestamps table = [202011010100]
  ∧ scraper.datetime scraper.iso_datetime s2 ∉ timestamps table.
Proof.
  intros s1 s2 table. split_and!; [reflexivity..|].
  intros Hin. vm_compute in Hin. by apply (proj1 (list_elem_of_singleton _ _)) in Hin.
Qed.

(** ** The cleaned view *)

Lemma Forall_is_Some_map {A} (f : A → option Q) (l : list A) :
  Forall (λ c, is_Some c) (map f l) ↔ Forall (λ x, is_Some (f x)) l.
Proof.
  induction l as [|x l IH]; simpl; [by split; constructor|].
  rewrite !Forall_cons, IH. done.
Qed.

(** C9.  The cleaned view has the columns O3, NO, NO2, SR, Temp in that
    order, and its rows are, in their order, the rows of the wide table in
    which each of these columns has a value, cut down to these columns:
    every row of the cleaned view is fully populated and no fully populated
    row of the wide table is left out. *)
Theorem cleaned_view (wide : DataFrame) :
  let populated := λ r : Z * list (option Q),
    Forall (λ c, is_Some (cell_of (columns wide) r.2 c)) scraper.required_cols in
  columns (scraper.cleaned wide) = ["O3"; "NO"; "NO2"; "SR"; "Temp"]%string
  ∧ rows (scraper.cleaned wide)
    = map (λ r, (r.1, map (cell_of (columns wide) r.2) scraper.required_cols))
          (filter populated (rows wide))
  ∧ (∀ t cells, (t, cells) ∈ rows (scraper.cleaned wide) →
       length cells = 5%nat ∧ Forall (λ c, is_Some c) cells)
  ∧ (∀ t old, (t, old) ∈ rows wide → populated (t, old) →
       (t, map (cell_of (columns wide) old) scraper.required_cols)
       ∈ rows (scraper.cleaned wide)).
Proof.
  intros populated.
  assert (Hrows : rows (scraper.cleaned wide)
    = map (λ r, (r.1, map (cell_of (columns wide) r.2) scraper.required_cols))
          (filter populated (rows wide))).
  { unfold scraper.cleaned, dropna, reindex. cbn [rows columns].
    induction (rows wide) as [|r rs IH]; [done|].
    cbn [map]. rewrite !filter_cons. cbn [snd].
    destruct (decide (populated r)) as [Hr|Hr].
    - rewrite decide_True by exact (proj2 (Forall_is_Some_map _ _) Hr).
      cbn [map]. by rewrite IH.
    - rewrite decide_False; [done|].
      intros Hall. apply Hr. exact (proj1 (Forall_is_Some_map _ _) Hall). }
  split_and!.
  - done.
  - done.
  - intros t cells. rewrite Hrows.
    intros ([t' old] & Heq & [Hpop _]%list_elem_of_filter)%list_elem_of_fmap.
    cbn [fst snd] in Heq. injection Heq as -> ->.
    split; [done|]. exact (proj2 (Forall_is_Some_map _ _) Hpop).
  - intros t old Hin Hpop. rewrite Hrows.
    apply list_elem_of_fmap. exists (t, old). split; [done|].
    by apply list_elem_of_filter.
Qed.

(** ** The channel metadata *)

Lemma dict_get_fmap {A} (f : string → A) (keys : list string) (k : string) :
  k ∈ keys → dict_get k (map (λ c, (c, f c)) keys) = Some (f k).
Proof.
  induction keys as [|c keys IH]; [by intros ?%not_elem_of_nil|].
  intros Hk. simpl. case_bool_decide as Hc; [by subst|].
  apply IH. apply elem_of_cons in Hk as [->|]; done.
Qed.

Section MetadataProperties.

Context {V : Type} `{EqDecision V}.

Lemma parameter_details_unfold (df : list (scraper.RawSample V)) :
  scraper.parameter_details df
  = [("O3", scraper.channel_details df "44201");
     ("NO", scraper.channel_details df "42601");
     ("NO2", scraper.channel_details df "42602");
     ("SR", scraper.channel_details df "63301");
     ("Temp", scraper.channel_details df "62101")]%string.
Proof. reflexivity. Qed.

Lemma elem_of_flat_map {A B} (f : A → list B) (l : list A) (y : B) :
  y ∈ flat_map f l ↔ ∃ x, x ∈ l ∧ y ∈ f x.
Proof.
  rewrite list_elem_of_In, in_flat_map.
  split; intros (x & Hx & Hy); exists x; by rewrite ?list_elem_of_In in *.
Qed.

Lemma elem_of_candidates (df : list (scraper.RawSample V)) (col : string) :
  col ∈ scraper.candidates df
  ↔ ((col ∉ scraper.exclude) ∧ ∃ s, s ∈ df ∧ col ∈ (scraper.attributes s).*1).
Proof.
  unfold scraper.candidates.
  by rewrite list_elem_of_filter, elem_of_unique, elem_of_flat_map.
Qed.

Lemma elem_of_unique_vals (subset : list (scraper.RawSample V)) (col : string) (v : V) :
  v ∈ scraper.unique_vals subset col
  ↔ ∃ s, s ∈ subset ∧ dict_get col (scraper.attributes s) = Some (Some v).
Proof.
  unfold scraper.unique_vals. rewrite elem_of_unique, list_elem_of_omap.
  split; intros (s & Hs & Hv); exists s; (split; [done|]).
  - by destruct (dict_get col (scraper.attributes s)) as [[v'|]|]; simplify_eq/=.
  - by rewrite Hv.
Qed.

(** C8.  The metadata has an entry for each of the five channels, in the
    order O3, NO, NO2, SR, Temp.  The entry of a channel without a sample
    is the marker "No Data".  The entry of a channel with samples has one
    field for each column of the frame outside the excluded ones, and the
    field holds the distinct non-null values of that column over the
    samples of the channel: null when there is none, the value itself when
    there is one, and the list of them when there are more. *)
Theorem parameter_details_collapse (df : list (scraper.RawSample V)) :
  (scraper.parameter_details df).*1 = ["O3"; "NO"; "NO2"; "SR"; "Temp"]%string
  ∧ ∀ p_code p_name, (p_code, p_name) ∈ scraper.PARAMS →
      let subset := filter (λ s, scraper.parameter_code s = p_code) df in
      (subset = [] → dict_get p_name (scraper.parameter_details df) = Some NoData)
      ∧ (subset ≠ [] →
         ∃ fields,
           dict_get p_name (scraper.parameter_details df) = Some (Details fields)
           ∧ (∀ col, col ∈ fields.*1
                     ↔ ((col ∉ scraper.exclude)
                        ∧ ∃ s, s ∈ df ∧ col ∈ (scraper.attributes s).*1))
           ∧ ∀ col, col ∈ fields.*1 →
               ∃ vals,
                 NoDup vals
                 ∧ (∀ v, v ∈ vals
                         ↔ (∃ s, s ∈ subset
                                 ∧ dict_get col (scraper.attributes s) = Some (Some v)))
                 ∧ dict_get col fields
                   = Some (match vals with
                           | [] => Null
                           | [v] => Scalar v
                           | _ => Values vals
                           end)).
Proof.
  split; [done|].
  intros p_code p_name Hparam subset.
  assert (Hentry : dict_get p_name (scraper.parameter_details df)
                   = Some (scraper.channel_details df p_code)).
  { rewrite parameter_details_unfold. unfold scraper.PARAMS in Hparam.
    repeat (apply elem_of_cons in Hparam as [Hparam|Hparam];
            [by simplify_eq|]).
    by apply not_elem_of_nil in Hparam. }
  rewrite Hentry. unfold scraper.channel_details. fold subset.
  split.
  - by intros ->.
  - intros Hne. destruct subset as [|s0 subset0] eqn:Hsubset; [done|].
    rewrite <- Hsubset. clear Hne.
    set (fields := map (λ col, (col, scraper.collapse (scraper.unique_vals subset col)))
                       (scraper.candidates df)).
    assert (Hkeys : fields.*1 = scraper.candidates df).
    { unfold fields. change (map ?f ?l) with (f <$> l).
      rewrite <- list_fmap_compose. apply list_fmap_id. }
    exists fields. split; [done|]. rewrite Hkeys. split.
    + apply elem_of_candidates.
    + intros col Hcol. exists (scraper.unique_vals subset col). split_and!.
      * apply NoDup_unique.
      * apply elem_of_unique_vals.
      * unfold fields.
        by rewrite (dict_get_fmap
          (λ col, scraper.collapse (scraper.unique_vals subset col))).
Qed.

End MetadataProperties.


(** * Further properties of the two scripts *)

(** ** Dictionaries *)

Lemma dict_set_keys {A} (k : string) (v : A) (d : list (string * A)) :
  (dict_set k v d).*1 = if decide (k ∈ d.*1) then d.*1 else d.*1 ++ [k].
Proof.
  induction d as [|[k' v'] d IH]; [done|].
  cbn [dict_set fst]. case_bool_decide as Hk.
  - subst k'. rewrite decide_True by (by left). done.
  - cbn [fmap list_fmap fst]. cbn [fmap] in IH. rewrite IH.
    destruct (decide (k ∈ d.*1)) as [Hin|Hnin].
    + rewrite decide_True by (by right). done.
    + rewrite decide_False; [done|].
      intros [?|?]%elem_of_cons; congruence.
Qed.

Lemma dict_set_NoDup {A} (k : string) (v : A) (d : list (string * A)) :
  NoDup d.*1 → NoDup (dict_set k v d).*1.
Proof.
  intros Hnd. rewrite dict_set_keys.
  destruct (decide (k ∈ d.*1)); [done|].
  apply NoDup_app. split_and!; [done| |apply NoDup_singleton].
  intros x Hx ->%list_elem_of_singleton. done.
Qed.

Lemma elem_of_dict_set {A} (k : string) (v : A) (d : list (string * A))
    (x : string * A) :
  x ∈ dict_set k v d → x = (k, v) ∨ x ∈ d.
Proof.
  induction d as [|[k' v'] d IH]; cbn [dict_set].
  - intros ->%list_elem_of_singleton. by left.
  - case_bool_decide.
    + intros [->|?]%elem_of_cons; [by left|]. right. by right.
    + intros [->|Hx]%elem_of_cons; [right; by left|].
      destruct (IH Hx) as [->|?]; [by left|]. right. by right.
Qed.

Lemma dict_get_set_eq {A} (k : string) (v : A) (d : list (string * A)) :
  dict_get k (dict_set k v d) = Some v.
Proof.
  induction d as [|[k' v'] d IH]; cbn [dict_set dict_get].
  - by rewrite bool_decide_eq_true_2.
  - case_bool_decide as Hk; cbn [dict_get].
    + by rewrite bool_decide_eq_true_2.
    + by rewrite bool_decide_eq_false_2.
Qed.

Lemma dict_get_set_ne {A} (k k' : string) (v : A) (d : list (string * A)) :
  k ≠ k' → dict_get k' (dict_set k v d) = dict_get k' d.
Proof.
  intros Hne.
  induction d as [|[k0 v0] d IH]; cbn [dict_set dict_get].
  - by rewrite bool_decide_eq_false_2.
  - case_bool_decide as Hk; cbn [dict_get].
    + subst k0. by rewrite !bool_decide_eq_false_2.
    + case_bool_decide; [done|]. apply IH.
Qed.

Lemma dict_get_elem_of {A} (k : string) (v : A) (d : list (string * A)) :
  NoDup d.*1 → (k, v) ∈ d ↔ dict_get k d = Some v.
Proof.
  induction d as [|[k' v'] d IH]; intros Hnd; cbn [dict_get].
  - split; [by intros ?%not_elem_of_nil|done].
  - apply NoDup_cons in Hnd as [Hk' Hnd]. rewrite elem_of_cons.
    case_bool_decide as Hk.
    + subst k'. split; [|intros [= ->]; by left].
      intros [[= ->]|Hin]; [done|].
      destruct Hk'. by apply (list_elem_of_fmap_2 fst) in Hin.
    + rewrite <- (IH Hnd). split; [|by right].
      intros [Heq|Hin]; [|done]. congruence.
Qed.

(** ** Entity discovery *)

Section Deduplication.

(** The loop [for s in all_sites: unique_sites[uid] = s], from a dictionary
    [d]. *)
Let collect (d : list (string * scraper.Site)) (l : list scraper.Site) :=
  foldl (λ d s, dict_set (scraper.uid s) s d) d l.

Lemma collect_NoDup (l : list scraper.Site) :
  ∀ d, NoDup d.*1 → NoDup (collect d l).*1.
Proof.
  induction l as [|s l IH]; intros d Hnd; [done|].
  apply IH. by apply dict_set_NoDup.
Qed.

Lemma collect_get (k : string) (l : list scraper.Site) :
  ∀ d, dict_get k (collect d l)
       = match last (filter (λ s, scraper.uid s = k) l) with
         | Some s => Some s
         | None => dict_get k d
         end.
Proof.
  induction l as [|s l IH]; intros d; [done|].
  cbn [collect foldl]. fold (collect (dict_set (scraper.uid s) s d) l).
  rewrite IH, filter_cons.
  destruct (decide (scraper.uid s = k)) as [<-|Hne].
  - destruct (filter _ l) as [|s' l'] eqn:Hf.
    + cbn [last]. apply dict_get_set_eq.
    + rewrite last_cons_cons.
      destruct (last (s' :: l')) eqn:Hlast; [done|].
      by apply last_None in Hlast.
  - destruct (last (filter _ l)); [done|]. by apply dict_get_set_ne.
Qed.

Lemma collect_keys (l : list scraper.Site) :
  ∀ d, Forall (λ kv, kv.1 = scraper.uid kv.2) d →
       Forall (λ kv, kv.1 = scraper.uid kv.2) (collect d l).
Proof.
  induction l as [|s l IH]; intros d Hd; [done|].
  apply IH. apply Forall_forall. intros kv [->|Hin]%elem_of_dict_set; [done|].
  rewrite Forall_forall in Hd. auto.
Qed.

Lemma collect_sites (l : list scraper.Site) :
  let sites := (collect [] l).*2 in
  NoDup (map scraper.uid sites)
  ∧ ∀ s, s ∈ sites ↔ last (filter (λ x, scraper.uid x = scraper.uid s) l) = Some s.
Proof.
  intros sites. subst sites.
  pose proof (collect_NoDup l [] (NoDup_nil_2)) as Hnd.
  pose proof (collect_keys l [] (Forall_nil_2 _)) as Hkeys.
  assert (Huid : map scraper.uid (collect [] l).*2 = (collect [] l).*1).
  { change (map ?f ?x) with (f <$> x). rewrite <- list_fmap_compose.
    apply list_fmap_ext. intros i kv Hi. cbn.
    rewrite Forall_forall in Hkeys. symmetry. apply Hkeys.
    by eapply list_elem_of_lookup_2. }
  split; [by rewrite Huid|].
  intros s. rewrite list_elem_of_fmap.
  pose proof (collect_get (scraper.uid s) l []) as Hget.
  cbn [dict_get] in Hget.
  split.
  - intros ([k s'] & -> & Hin). cbn [snd] in *.
    rewrite Forall_forall in Hkeys. pose proof (Hkeys _ Hin) as Hk. cbn in Hk. subst k.
    apply (dict_get_elem_of _ _ _ Hnd) in Hin. rewrite Hget in Hin.
    by destruct (last _).
  - intros Hlast. rewrite Hlast in Hget.
    exists (scraper.uid s, s). split; [done|].
    by apply (dict_get_elem_of _ _ _ Hnd).
Qed.

End Deduplication.

Lemma sites_of_counties_raises {V} (net : scraper.AQS V) (counties : list scraper.County) :
  ∀ acc, existsb (Listing.raises net) counties = true →
         (scraper.sites_of_counties net counties acc).1 = None.
Proof.
  induction counties as [|county rest IH]; intros acc Hex; [done|].
  cbn [existsb] in Hex. cbn [scraper.sites_of_counties].
  unfold Listing.raises in Hex at 1.
  destruct (get _ _) as [[status body|] n]; cbn [fst] in *; [|done].
  destruct (decide (status = 200)) as [Hstatus|Hstatus].
  - rewrite !(bool_decide_eq_true_2 (status = 200)) in * by done.
    destruct body as [|data]; [done|]. cbn [orb] in Hex.
    specialize (IH (acc ++ map (scraper.tag_site county) (default [] data)) Hex).
    by destruct (scraper.sites_of_counties _ _ _).
  - rewrite !(bool_decide_eq_false_2 (status = 200)) in * by done.
    assert (Hrest : existsb (Listing.raises net) rest = true) by by destruct body.
    specialize (IH acc Hrest).
    by destruct (scraper.sites_of_counties _ _ _).
Qed.

Lemma sites_of_counties_listed {V} (net : scraper.AQS V) (counties : list scraper.County) :
  ∀ acc, existsb (Listing.raises net) counties = false →
         (scraper.sites_of_counties net counties acc).1
         = Some (acc ++ flat_map (λ county, map (scraper.tag_site county)
                                               (Listing.sites net county)) counties).
Proof.
  induction counties as [|county rest IH]; intros acc Hex.
  - cbn. by rewrite app_nil_r.
  - cbn [existsb] in Hex. apply orb_false_iff in Hex as [Hhere Hrest].
    cbn [scraper.sites_of_counties flat_map].
    unfold Listing.raises in Hhere. unfold Listing.sites at 1.
    destruct (get _ _) as [[status body|] n]; cbn [fst] in *; [|done].
    destruct (decide (status = 200)) as [Hstatus|Hstatus].
    + rewrite !(bool_decide_eq_true_2 (status = 200)) in * by done.
      destruct body as [|data]; [done|].
      specialize (IH (acc ++ map (scraper.tag_site county) (default [] data)) Hrest).
      destruct (scraper.sites_of_counties _ _ _). cbn [fst] in *.
      by rewrite IH, <- app_assoc.
    + rewrite !(bool_decide_eq_false_2 (status = 200)) in * by done.
      specialize (IH acc Hrest).
      destruct (scraper.sites_of_counties _ _ _). cbn [fst] in *.
      rewrite IH. by destruct body.
Qed.

Lemma get_sites_listed {V} (net : scraper.AQS V) :
  (scraper.get_sites net).1
  = if existsb (Listing.raises net) (Listing.counties net) then []
    else (foldl (λ d s, dict_set (scraper.uid s) s d) [] (Listing.all_sites net)).*2.
Proof.
  unfold scraper.get_sites, Listing.all_sites, Listing.counties.
  destruct (get _ _) as [[status body|] n]; cbn [fst]; [|done].
  case_bool_decide as Hstatus.
  - rewrite bool_decide_eq_false_2 by done. by destruct body.
  - rewrite bool_decide_eq_true_2 by (by destruct (decide (status = 200))).
    destruct body as [|data]; [done|].
    destruct (existsb (Listing.raises net) (default [] data)) eqn:Hex.
    + pose proof (sites_of_counties_raises net (default [] data) [] Hex) as Hnone.
      destruct (scraper.sites_of_counties _ _ _) as [r log]. cbn [fst] in Hnone.
      by subst r.
    + pose proof (sites_of_counties_listed net (default [] data) [] Hex) as Hsome.
      destruct (scraper.sites_of_counties _ _ _) as [r log]. cbn [fst] in Hsome.
      by subst r.
Qed.

(** X3.  When no request for the sites of a county ends in an exception,
    the sites [get_sites] returns have pairwise distinct identities
    (state-county-site), and they are exactly the listed sites that are the
    last listing of their identity: a site listed more than once is kept
    once, with the data of its last listing. *)
Theorem get_sites_deduplicated {V} (net : scraper.AQS V) :
  existsb (Listing.raises net) (Listing.counties net) = false →
  let sites := (scraper.get_sites net).1 in
  NoDup (map scraper.uid sites)
  ∧ ∀ s, s ∈ sites
         ↔ last (filter (λ x, scraper.uid x = scraper.uid s) (Listing.all_sites net))
           = Some s.
Proof.
  intros Hex sites. subst sites. rewrite get_sites_listed, Hex.
  apply collect_sites.
Qed.

(** X3 on a network that lists the same site under one identity twice: the
    second listing is the one returned. *)
Lemma get_sites_deduplicated_witness :
  let second := {| scraper.entry_code := "3006";
                   scraper.entry_value_represented := Some "Hawthorne Elementary"%string;
                   scraper.entry_local_site_name := None |} in
  let net : scraper.AQS string :=
    {| scraper.countiesByState := [Answer 200 (Object (Some [Fixture.county]))];
       scraper.sitesByCounty := λ _, [Answer 200 (Object (Some [Fixture.entry; second]))];
       scraper.monitors_bySite := λ _ _, [];
       scraper.sampleData_bySite := λ _ _ _ _, [] |} in
  (scraper.get_sites net).1 = [scraper.tag_site Fixture.county second]
  ∧ NoDup (map scraper.uid (scraper.get_sites net).1)
  ∧ ∀ s, s ∈ (scraper.get_sites net).1
         ↔ last (filter (λ x, scraper.uid x = scraper.uid s) (Listing.all_sites net))
           = Some s.
Proof.
  intros second net. split; [reflexivity|].
  apply (get_sites_deduplicated net). reflexivity.
Defined.

(** X4.  When the request for the sites of any one county ends in an
    exception, [get_sites] returns no site at all, whatever the other
    counties listed, and the run writes no file. *)
Theorem get_sites_nothing_on_exception {V} `{EqDecision V}
    (to_datetime : string → Z) (net : scraper.AQS V) (now : scraper.Now) :
  existsb (Listing.raises net) (Listing.counties net) = true →
  (scraper.get_sites net).1 = []
  ∧ (scraper.main to_datetime net now).1 = [].
Proof.
  intros Hex.
  assert (Hsites : (scraper.get_sites net).1 = [])
    by by rewrite get_sites_listed, Hex.
  split; [done|]. unfold scraper.main.
  destruct (scraper.get_sites net) as [sites log]. cbn [fst] in Hsites.
  by subst sites.
Qed.

(** X4 on a network with two counties: the first lists the site of the
    examples, the host does not answer the request for the second. *)
Lemma get_sites_nothing_on_exception_witness :
  let other := {| scraper.county_entry_code := "049";
                  scraper.county_value_represented := "Utah" |} in
  let net : scraper.AQS string :=
    {| scraper.countiesByState := [Answer 200 (Object (Some [Fixture.county; other]))];
       scraper.sitesByCounty := λ county,
         if bool_decide (county = "035"%string)
         then [Answer 200 (Object (Some [Fixture.entry]))]
         else [];
       scraper.monitors_bySite := λ _ _, [Answer 200 (Object (Some Fixture.monitors))];
       scraper.sampleData_bySite := λ _ _ _ _, [Answer 200 (Object (Some []))] |} in
  (scraper.get_sites net).1 = []
  ∧ (scraper.main scraper.iso_datetime net Fixture.now).1 = [].
Proof.
  intros other net.
  apply (get_sites_nothing_on_exception scraper.iso_datetime net Fixture.now).
  reflexivity.
Defined.

(** ** File names *)

Lemma is_word_underscore : scraper.is_word "_"%char = true.
Proof. reflexivity. Qed.

Lemma sanitize_filename_spec (name : string) :
  String.length (scraper.sanitize_filename name) = String.length name
  ∧ Forall (λ c, scraper.is_word c = true)
           (list_ascii_of_string (scraper.sanitize_filename name))
  ∧ (∀ i c, String.get i name = Some c → scraper.is_word c = true →
            String.get i (scraper.sanitize_filename name) = Some c)
  ∧ (∀ i c, String.get i name = Some c → scraper.is_word c = false →
            String.get i (scraper.sanitize_filename name) = Some "_"%char)
  ∧ (Forall (λ c, scraper.is_word c = true) (list_ascii_of_string name) →
     scraper.sanitize_filename name = name)
  ∧ scraper.sanitize_filename (scraper.sanitize_filename name)
    = scraper.sanitize_filename name.
Proof.
  induction name as [|a name (IHlen & IHall & IHkeep & IHsub & IHfix & IHidem)].
  - by split_and!.
  - cbn [scraper.sanitize_filename String.length list_ascii_of_string].
    split_and!.
    + by rewrite IHlen.
    + constructor; [|done]. destruct (scraper.is_word a) eqn:Ha; [done|reflexivity].
    + intros [|i] c; cbn [String.get].
      * intros [= ->] ->. done.
      * apply IHkeep.
    + intros [|i] c; cbn [String.get].
      * intros [= ->] ->. done.
      * apply IHsub.
    + intros [Ha Hall]%Forall_cons. by rewrite Ha, IHfix.
    + rewrite IHidem. destruct (scraper.is_word a) eqn:Ha; [by rewrite Ha|done].
Qed.

(** X5.  On a name of ASCII characters, [sanitize_filename] keeps the
    length of the name and each of its letters, digits, underscores and
    hyphens, and puts an underscore for every other character: the result
    consists of these characters only (so it holds no path separator and no
    dot), a name that consists of them is returned as it is, and sanitizing
    twice is sanitizing once. *)
Theorem sanitize_filename_safe (name : string) :
  Forall (λ c, (nat_of_ascii c < 128)%nat) (list_ascii_of_string name) →
  String.length (scraper.sanitize_filename name) = String.length name
  ∧ Forall (λ c, scraper.is_word c = true)
           (list_ascii_of_string (scraper.sanitize_filename name))
  ∧ (∀ i c, String.get i name = Some c → scraper.is_word c = true →
            String.get i (scraper.sanitize_filename name) = Some c)
  ∧ (∀ i c, String.get i name = Some c → scraper.is_word c = false →
            String.get i (scraper.sanitize_filename name) = Some "_"%char)
  ∧ (Forall (λ c, scraper.is_word c = true) (list_ascii_of_string name) →
     scraper.sanitize_filename name = name)
  ∧ scraper.sanitize_filename (scraper.sanitize_filename name)
    = scraper.sanitize_filename name.
Proof. intros _. apply sanitize_filename_spec. Qed.

(** X5 on the name of a site with a blank, a dot and a slash in it. *)
Lemma sanitize_filename_safe_witness :
  scraper.sanitize_filename "Salt Lake/N. Temple_490353006"
  = "Salt_Lake_N__Temple_490353006"%string
  ∧ String.length (scraper.sanitize_filename "Salt Lake/N. Temple_490353006") = 29%nat
  ∧ Forall (λ c, scraper.is_word c = true)
           (list_ascii_of_string
              (scraper.sanitize_filename "Salt Lake/N. Temple_490353006")).
Proof.
  split; [reflexivity|].
  assert (Hascii : Forall (λ c, (nat_of_ascii c < 128)%nat)
                     (list_ascii_of_string "Salt Lake/N. Temple_490353006")).
  { apply (bool_decide_unpack _). by vm_compute. }
  destruct (sanitize_filename_safe "Salt Lake/N. Temple_490353006" Hascii)
    as (Hlen & Hall & _).
  split; [exact Hlen|exact Hall].
Defined.

Lemma append_inj_r (p a b : string) : (p +:+ a = p +:+ b)%string → a = b.
Proof. induction p as [|c p IH]; cbn; [done|]. intros [= H]. auto. Qed.

Lemma site_paths_NoDup (dir safe_name : string) :
  NoDup [dir +:+ safe_name +:+ "_raw.csv"; dir +:+ safe_name +:+ "_cleaned.csv";
         dir +:+ safe_name +:+ "_metadata.json"]%string.
Proof.
  apply NoDup_cons. split.
  { rewrite !elem_of_cons, elem_of_nil.
    intros [H|[H|[]]]; apply append_inj_r, append_inj_r in H; discriminate H. }
  apply NoDup_cons. split; [|apply NoDup_singleton].
  rewrite elem_of_cons, elem_of_nil.
  intros [H|[]]; apply append_inj_r, append_inj_r in H; discriminate H.
Qed.


(** ** The cleaned CSV of a site *)

Lemma cleaned_rows (wide : DataFrame) :
  rows (scraper.cleaned wide)
  = map (λ r, (r.1, map (cell_of (columns wide) r.2) scraper.required_cols))
        (filter (λ r, Forall (λ c, is_Some (cell_of (columns wide) r.2 c))
                             scraper.required_cols) (rows wide)).
Proof.
  unfold scraper.cleaned, dropna, reindex. cbn [rows columns].
  induction (rows wide) as [|r rs IH]; [done|].
  cbn [map]. rewrite !filter_cons. cbn [snd].
  destruct (decide (Forall (λ c, is_Some (cell_of (columns wide) r.2 c))
                           scraper.required_cols)) as [Hr|Hr].
  - rewrite decide_True by exact (proj2 (Forall_is_Some_map _ _) Hr).
    cbn [map]. by rewrite IH.
  - rewrite decide_False; [done|].
    intros Hall. apply Hr. exact (proj1 (Forall_is_Some_map _ _) Hall).
Qed.

Lemma cleaned_timestamps_filter (wide : DataFrame) :
  timestamps (scraper.cleaned wide)
  = (filter (λ r, Forall (λ c, is_Some (cell_of (columns wide) r.2 c))
                         scraper.required_cols) (rows wide)).*1.
Proof.
  unfold timestamps. rewrite cleaned_rows.
  change (map ?f ?l) with (f <$> l). rewrite <- list_fmap_compose.
  by apply list_fmap_ext.
Qed.

Section CleanedProperties.

Context {V : Type} `{EqDecision V}.
Variable to_datetime : string → Z.

Lemma measurements_nonempty (df : list (scraper.RawSample V)) (t : Z) (c : string) :
  scraper.measurements to_datetime df t c ≠ []
  ↔ ∃ s, s ∈ df ∧ scraper.datetime to_datetime s = t
         ∧ scraper.param_name s = Some c
         ∧ is_Some (scraper.sample_measurement s).
Proof.
  unfold scraper.measurements. split.
  - intros Hne.
    destruct (omap _ _) as [|v vs] eqn:Hvs; [done|].
    assert (Hv : v ∈ omap scraper.sample_measurement
                   (filter (λ s, scraper.datetime to_datetime s = t
                                 ∧ scraper.param_name s = Some c) df))
      by (rewrite Hvs; left).
    apply list_elem_of_omap in Hv as (s & [[Ht Hc] Hs]%list_elem_of_filter & Hm).
    exists s. by rewrite Hm.
  - intros (s & Hs & Ht & Hc & [v Hm]) Hnil.
    assert (Hv : v ∈ omap scraper.sample_measurement
                   (filter (λ s, scraper.datetime to_datetime s = t
                                 ∧ scraper.param_name s = Some c) df)).
    { apply list_elem_of_omap. exists s. split; [|done].
      by apply list_elem_of_filter. }
    rewrite Hnil in Hv. by apply not_elem_of_nil in Hv.
Qed.

Lemma required_cols_names (c : string) :
  c ∈ scraper.required_cols ↔ c ∈ ["NO"; "NO2"; "O3"; "SR"; "Temp"]%string.
Proof.
  unfold scraper.required_cols. rewrite !elem_of_cons, !elem_of_nil. tauto.
Qed.

(** The cell of a row of the pivoted table under a required channel has a
    value exactly when a sample of that timestamp and channel has a
    measurement. *)
Lemma pivot_table_cell_is_Some (df : list (scraper.RawSample V)) (t : Z)
    (cells : list (option Q)) (c : string) :
  (t, cells) ∈ rows (scraper.pivot_table to_datetime df) →
  c ∈ scraper.required_cols →
  is_Some (cell_of (columns (scraper.pivot_table to_datetime df)) cells c)
  ↔ ∃ s, s ∈ df ∧ scraper.datetime to_datetime s = t
         ∧ scraper.param_name s = Some c
         ∧ is_Some (scraper.sample_measurement s).
Proof.
  intros Hrow Hc. rewrite <- measurements_nonempty.
  destruct (decide (c ∈ columns (scraper.pivot_table to_datetime df))) as [Hin|Hnin].
  - unfold scraper.pivot_table in Hrow, Hin |- *. cbn [rows columns] in *.
    apply list_elem_of_fmap in Hrow as (t' & Heq & _).
    cbn [fst snd] in Heq. injection Heq as -> ->.
    rewrite cell_of_fmap by done.
    destruct (scraper.measurements to_datetime df t' c); by split.
  - rewrite cell_of_absent by done. split; [by intros [? ?]|].
    intros Hne. destruct Hnin.
    rewrite pivot_table_columns_sorted, list_elem_of_filter.
    split; [|by apply required_cols_names].
    apply measurements_nonempty in Hne as (s & Hs & _ & Hcs & Hm).
    unfold scraper.has_data. rewrite Exists_exists. eauto.
Qed.

Lemma cleaned_timestamp_iff (df : list (scraper.RawSample V)) (t : Z) :
  t ∈ timestamps (scraper.cleaned (scraper.pivot_table to_datetime df))
  ↔ ∀ c, c ∈ scraper.required_cols →
         ∃ s, s ∈ df ∧ scraper.datetime to_datetime s = t
              ∧ scraper.param_name s = Some c
              ∧ is_Some (scraper.sample_measurement s).
Proof.
  rewrite cleaned_timestamps_filter, list_elem_of_fmap.
  split.
  - intros ([t' cells] & -> & [Hpop Hrow]%list_elem_of_filter) c Hc.
    cbn [fst snd] in *. rewrite Forall_forall in Hpop.
    apply (pivot_table_cell_is_Some df t' cells c Hrow Hc). by apply Hpop.
  - intros Hall.
    assert (Ht : t ∈ timestamps (scraper.pivot_table to_datetime df)).
    { destruct (Hall "O3"%string) as (s & Hs & Hts & Hcs & Hm); [by left|].
      rewrite pivot_table_index, merge_sort_Permutation, elem_of_unique,
        list_elem_of_fmap.
      exists (t, "O3"%string). split; [done|].
      apply elem_of_group_keys. eauto. }
    unfold timestamps in Ht. apply list_elem_of_fmap in Ht as ([t' cells] & -> & Hrow).
    exists (t', cells). split; [done|].
    apply list_elem_of_filter. split; [|done].
    apply Forall_forall. intros c Hc. cbn [fst snd] in *.
    apply (pivot_table_cell_is_Some df t' cells c Hrow Hc). by apply Hall.
Qed.

Lemma cleaned_empty_without_channel (df : list (scraper.RawSample V)) (c : string) :
  c ∈ scraper.required_cols → ¬ scraper.has_data df c →
  rows (scraper.cleaned (scraper.pivot_table to_datetime df)) = [].
Proof.
  intros Hc Hdata.
  destruct (timestamps (scraper.cleaned (scraper.pivot_table to_datetime df)))
    as [|t ts] eqn:Hts.
  - unfold timestamps in Hts. by apply fmap_nil_inv in Hts.
  - destruct Hdata.
    assert (Ht : t ∈ timestamps (scraper.cleaned (scraper.pivot_table to_datetime df)))
      by (rewrite Hts; left).
    destruct (proj1 (cleaned_timestamp_iff df t) Ht c Hc) as (s & Hs & _ & Hcs & Hm).
    unfold scraper.has_data. rewrite Exists_exists. eauto.
Qed.

(** X7.  A timestamp has a row in the cleaned CSV exactly when, for each
    of the five channels O3, NO, NO2, SR and Temp, some sample at that
    timestamp carries a measurement.  The timestamps of the cleaned CSV
    are among those of the raw CSV, in the same order and without
    repetition; when one of the five channels has no measurement at all,
    the cleaned CSV has no row. *)
Theorem cleaned_timestamps (df : list (scraper.RawSample V)) :
  let raw := scraper.pivot_table to_datetime df in
  let clean := scraper.cleaned raw in
  (∀ t, t ∈ timestamps clean
        ↔ ∀ c, c ∈ ["O3"; "NO"; "NO2"; "SR"; "Temp"]%string →
               ∃ s, s ∈ df ∧ scraper.datetime to_datetime s = t
                    ∧ scraper.param_name s = Some c
                    ∧ is_Some (scraper.sample_measurement s))
  ∧ timestamps clean `sublist_of` timestamps raw
  ∧ NoDup (timestamps clean)
  ∧ ((∃ c, c ∈ ["O3"; "NO"; "NO2"; "SR"; "Temp"]%string ∧ ¬ scraper.has_data df c) →
     rows clean = []).
Proof.
  intros raw clean.
  assert (Hsub : timestamps clean `sublist_of` timestamps raw).
  { subst clean. rewrite cleaned_timestamps_filter. unfold timestamps.
    apply fmap_sublist, sublist_filter. }
  split_and!.
  - apply cleaned_timestamp_iff.
  - done.
  - eapply sublist_NoDup; [|exact Hsub].
    subst raw. rewrite pivot_table_index, merge_sort_Permutation. apply NoDup_unique.
  - intros (c & Hc & Hdata). by apply (cleaned_empty_without_channel df c).
Qed.

(** X18.  A channel that the metadata of a site marks "No Data" has no
    column in the raw CSV of the site, and the cleaned CSV of the site
    then has no row. *)
Theorem no_data_channel (df : list (scraper.RawSample V)) (p_code p_name : string) :
  (p_code, p_name) ∈ scraper.PARAMS →
  dict_get p_name (scraper.parameter_details df) = Some NoData →
  filter (λ s : scraper.RawSample V, scraper.parameter_code s = p_code) df = []
  ∧ (p_name ∉ columns (scraper.pivot_table to_datetime df))
  ∧ rows (scraper.cleaned (scraper.pivot_table to_datetime df)) = [].
Proof.
  intros Hparam Hentry.
  assert (Hname : ∀ s : scraper.RawSample V, scraper.param_name s = Some p_name →
                       scraper.parameter_code s = p_code).
  { intros s. unfold scraper.param_name, scraper.PARAMS in *.
    rewrite !elem_of_cons, elem_of_nil in Hparam.
    cbn [dict_get]. repeat case_bool_decide; intros [= <-];
      destruct Hparam as [?|[?|[?|[?|[?|[]]]]]]; by simplify_eq. }
  assert (Hsubset : filter (λ s : scraper.RawSample V, scraper.parameter_code s = p_code) df = []).
  { assert (Hget : dict_get p_name (scraper.parameter_details df)
                   = Some (scraper.channel_details df p_code)).
    { rewrite parameter_details_unfold. unfold scraper.PARAMS in Hparam.
      repeat (apply elem_of_cons in Hparam as [Hparam|Hparam]; [by simplify_eq|]).
      by apply not_elem_of_nil in Hparam. }
    rewrite Hget in Hentry. unfold scraper.channel_details in Hentry.
    by destruct (filter _ df). }
  assert (Hdata : ¬ scraper.has_data df p_name).
  { unfold scraper.has_data. rewrite Exists_exists. intros (s & Hs & Hc & _).
    assert (Hin : s ∈ filter (λ s : scraper.RawSample V, scraper.parameter_code s = p_code) df)
      by (apply list_elem_of_filter; auto).
    rewrite Hsubset in Hin. by apply not_elem_of_nil in Hin. }
  split_and!.
  - done.
  - rewrite pivot_table_columns_sorted, list_elem_of_filter. tauto.
  - apply (cleaned_empty_without_channel df p_name); [|done].
    unfold scraper.PARAMS, scraper.required_cols in *.
    rewrite !elem_of_cons, !elem_of_nil in *.
    destruct Hparam as [?|[?|[?|[?|[?|[]]]]]]; simplify_eq; tauto.
Qed.

End CleanedProperties.

(** X18 on records that have ozone samples only: solar radiation is marked
    "No Data". *)
Lemma no_data_channel_witness :
  let df := [Fixture.sample "44201" "2020-11-01" "01:00" (Some (3 # 100)%Q)] in
  filter (λ s : scraper.RawSample string, scraper.parameter_code s = "63301"%string) df = []
  ∧ ("SR"%string ∉ columns (scraper.pivot_table scraper.iso_datetime df))
  ∧ rows (scraper.cleaned (scraper.pivot_table scraper.iso_datetime df)) = [].
Proof.
  intros df.
  apply (no_data_channel scraper.iso_datetime df "63301" "SR").
  - apply (bool_decide_unpack _). by vm_compute.
  - reflexivity.
Defined.

(** ** The capability check, second component *)

(** X8.  The list of found parameters that [check_site_monitors] returns
    holds each required code that occurs among the observed monitor codes,
    once each and no other code; the check accepts the site exactly when
    that list is a rearrangement of the five required codes. *)
Theorem check_site_monitors_found {V} (net : scraper.AQS V) (county site : string) :
  let result := (scraper.check_site_monitors net county site).1 in
  NoDup result.2
  ∧ (∀ c, c ∈ result.2
          ↔ c ∈ ["44201"; "42601"; "42602"; "63301"; "62101"]%string
            ∧ c ∈ scraper.observed_codes net county site)
  ∧ (result.1 = true
     ↔ result.2 ≡ₚ ["44201"; "42601"; "42602"; "63301"; "62101"]%string).
Proof.
  intros result. subst result. rewrite <- required_codes.
  assert (Hempty : ¬ @nil string ≡ₚ scraper.PARAMS.*1).
  { intros Hperm. by apply Permutation_nil_l in Hperm. }
  unfold scraper.check_site_monitors, scraper.observed_codes.
  destruct (get _ _) as [[status body|] n]; cbn [fst snd].
  2: { split_and!; [constructor|by intros c; rewrite elem_of_nil; tauto|by split]. }
  destruct (decide (status = 200)) as [->|Hstatus].
  2: { rewrite (bool_decide_eq_true_2 (status ≠ 200)) by done.
       rewrite (bool_decide_eq_false_2 (status = 200)) by done. cbn [fst snd].
       split_and!; [constructor| |by split].
       intros c. destruct body; rewrite !elem_of_nil; tauto. }
  rewrite (bool_decide_eq_false_2 (200 ≠ 200)) by (intros Hne; by apply Hne).
  rewrite (bool_decide_eq_true_2 (200 = 200)) by done.
  destruct body as [|data]; cbn [fst snd].
  { split_and!; [constructor|by intros c; rewrite elem_of_nil; tauto|by split]. }
  set (codes := map scraper.monitor_parameter_code (default [] data)).
  assert (Hfound : ∀ c, c ∈ remove_dups (filter (λ c, c ∈ scraper.PARAMS.*1) codes)
                        ↔ c ∈ scraper.PARAMS.*1 ∧ c ∈ codes).
  { intros c. by rewrite elem_of_remove_dups, list_elem_of_filter. }
  split_and!.
  - apply NoDup_remove_dups.
  - done.
  - rewrite bool_decide_eq_true. split.
    + intros Hsub. apply NoDup_Permutation.
      * apply NoDup_remove_dups.
      * apply (bool_decide_unpack _). by vm_compute.
      * intros c. split; [by intros [? _]%Hfound|apply Hsub].
    + intros Hperm c Hc. by rewrite Hperm.
Qed.

(** ** How many requests, how many tries *)

Lemma get_session_tries {B} (w : wire B) :
  (1 ≤ (get scraper.get_session w).2 ≤ 6)%nat.
Proof. rewrite get_get_session. apply urlopen_tries. Qed.

Lemma sites_of_counties_tries {V} (net : scraper.AQS V) (counties : list scraper.County) :
  ∀ acc, Forall (λ c, (1 ≤ call_tries c ≤ 6)%nat)
                (scraper.sites_of_counties net counties acc).2.
Proof.
  induction counties as [|county rest IH]; intros acc; [constructor|].
  cbn [scraper.sites_of_counties].
  pose proof (get_session_tries
                (scraper.sitesByCounty net (scraper.county_entry_code county))) as Hn.
  destruct (get _ _) as [[status body|] n]; cbn [snd] in Hn.
  - case_bool_decide.
    + destruct body as [|data]; [by apply Forall_singleton|].
      specialize (IH (acc ++ map (scraper.tag_site county) (default [] data))).
      destruct (scraper.sites_of_counties _ _ _). by constructor.
    + specialize (IH acc).
      destruct (scraper.sites_of_counties _ _ _). by constructor.
  - by apply Forall_singleton.
Qed.

Lemma get_sites_tries {V} (net : scraper.AQS V) :
  Forall (λ c, (1 ≤ call_tries c ≤ 6)%nat) (scraper.get_sites net).2.
Proof.
  unfold scraper.get_sites.
  pose proof (get_session_tries (scraper.countiesByState net)) as Hn.
  destruct (get _ _) as [[status body|] n]; cbn [snd] in Hn;
    [|by apply Forall_singleton].
  case_bool_decide; [by apply Forall_singleton|].
  destruct body as [|data]; [by apply Forall_singleton|].
  pose proof (sites_of_counties_tries net (default [] data) []) as Hlog.
  destruct (scraper.sites_of_counties _ _ _) as [[all_sites|] log];
    by constructor.
Qed.

Lemma fetch_years_tries {V} (net : scraper.AQS V) (now : scraper.Now)
    (county site : string) (years : list Z) :
  Forall (λ c, (1 ≤ call_tries c ≤ 6)%nat)
         (scraper.fetch_years net now county site years).2
  ∧ (length (scraper.fetch_years net now county site years).2 ≤ length years)%nat.
Proof.
  induction years as [|y rest [IHtries IHlen]]; [by split; [constructor|]|].
  cbn [scraper.fetch_years].
  destruct (_ && _); [split; [constructor|cbn; lia]|].
  set (edate := if bool_decide (y = scraper.year now)
                then (y * 10000 + 1231) `min` scraper.strftime_Ymd now
                else y * 10000 + 1231).
  pose proof (fetch_hourly_data_log net county site (y * 10000 + 101) edate) as Hlog.
  destruct (scraper.fetch_hourly_data _ _ _ _ _) as [data log]. cbn [snd] in Hlog.
  destruct (scraper.fetch_years _ _ _ _ _) as [more log']. cbn [snd] in *.
  subst log. split.
  - constructor; [apply get_session_tries|done].
  - cbn [app length]. lia.
Qed.


(** ** The fusion run *)

Lemma find_nearest_station_endpoint (w : wire (payload SynopticScraper.Station)) :
  call_endpoint <$> (SynopticScraper.find_nearest_station w).2 = [StationsMetadata].
Proof.
  unfold SynopticScraper.find_nearest_station.
  destruct (requests_get w) as [o n]. repeat case_match; reflexivity.
Qed.

Lemma fetch_synoptic_data_endpoint (tzdb : string → option (Z → Z))
    (station_timezone : option string) (w : wire SynopticScraper.timeseries_payload) :
  call_endpoint <$> (SynopticScraper.fetch_synoptic_data tzdb station_timezone w).2
  = [StationsTimeseries].
Proof.
  unfold SynopticScraper.fetch_synoptic_data.
  destruct (requests_get w) as [o n]. repeat case_match; reflexivity.
Qed.

(** The run once the token, the files, the location, a station and a
    table with rows are there: it is decided by the result of
    [fetch_synoptic_data]. *)
Lemma main_with_station {V} (tzdb : string → option (Z → Z))
    (token : string) (df : DataFrame) (metadata : Metadata V)
    (lat lon : collapsed V) (station_id : string) (station : SynopticScraper.Station)
    (metadata_wire : wire (payload SynopticScraper.Station))
    (timeseries_wire : wire SynopticScraper.timeseries_payload) (now : string) :
  token ≠ ""%string →
  SynopticScraper.location (default [] (details metadata)) = Some (lat, lon) →
  SynopticScraper.is_null lat = false →
  SynopticScraper.is_null lon = false →
  (SynopticScraper.find_nearest_station metadata_wire).1 = Some (station_id, station) →
  station_id ≠ ""%string →
  rows df ≠ [] →
  SynopticScraper.main tzdb (Some token) (Some (df, metadata)) metadata_wire
    timeseries_wire now
  = let log1 := (SynopticScraper.find_nearest_station metadata_wire).2 in
    let fetch := SynopticScraper.fetch_synoptic_data tzdb
                   (SynopticScraper.TIMEZONE station) timeseries_wire in
    match fetch.1 with
    | SynopticScraper.Bare _ => SynopticScraper.failed (log1 ++ fetch.2)
    | SynopticScraper.Triple synoptic_data units sensor_vars =>
        {| SynopticScraper.exit_code := 0;
           SynopticScraper.csv_written := Some (SynopticScraper.fuse_data df synoptic_data);
           SynopticScraper.json_written :=
             Some (set_synoptic_source
                     {| station_id := station_id;
                        station_name := SynopticScraper.NAME station;
                        distance_miles := SynopticScraper.DISTANCE station;
                        vars_fetched := ["solar_radiation"%string];
                        fetch_date := now;
                        units := units;
                        sensor_variables := sensor_vars |} metadata);
           SynopticScraper.calls := log1 ++ fetch.2 |}
    end.
Proof.
  intros Htoken Hloc Hlat Hlon Hfound Hid Hrows.
  unfold SynopticScraper.main.
  rewrite bool_decide_eq_false_2 by done.
  rewrite Hloc, Hlat, Hlon. cbn [orb].
  destruct (SynopticScraper.find_nearest_station metadata_wire) as [found log1].
  cbn [fst snd] in *. subst found.
  rewrite bool_decide_eq_false_2 by done.
  destruct (rows df) as [|r rs]; [done|].
  destruct (SynopticScraper.fetch_synoptic_data _ _ _) as [result log2].
  cbn [fst snd]. by destruct result.
Qed.

(** X10.  A fusion run that finds a station and gets a series back (also
    the empty series of a failed request) exits with 0 after the two
    requests, writes the fused table to the CSV and writes the metadata
    with a 'synoptic_source' block that names the station, leaving the
    other entries of the metadata as they were.  With an empty series the
    'SR_Synoptic' column written is entirely missing, old values included;
    with a series without a repeated timestamp the table keeps its
    timestamps. *)
Theorem main_fuses {V} (tzdb : string → option (Z → Z))
    (token : string) (df : DataFrame) (metadata : Metadata V)
    (lat lon : collapsed V) (stid : string) (station : SynopticScraper.Station)
    (metadata_wire : wire (payload SynopticScraper.Station))
    (timeseries_wire : wire SynopticScraper.timeseries_payload) (now : string)
    (series : SynopticScraper.Series) (u sv : string) :
  token ≠ ""%string →
  SynopticScraper.location (default [] (details metadata)) = Some (lat, lon) →
  SynopticScraper.is_null lat = false →
  SynopticScraper.is_null lon = false →
  (SynopticScraper.find_nearest_station metadata_wire).1 = Some (stid, station) →
  stid ≠ ""%string →
  rows df ≠ [] →
  rectangular df →
  (SynopticScraper.fetch_synoptic_data tzdb (SynopticScraper.TIMEZONE station)
     timeseries_wire).1 = SynopticScraper.Triple series u sv →
  let run := SynopticScraper.main tzdb (Some token) (Some (df, metadata))
               metadata_wire timeseries_wire now in
  SynopticScraper.exit_code run = 0
  ∧ call_endpoint <$> SynopticScraper.calls run = [StationsMetadata; StationsTimeseries]
  ∧ SynopticScraper.csv_written run = Some (SynopticScraper.fuse_data df series)
  ∧ (series = [] → all_missing "SR_Synoptic" (SynopticScraper.fuse_data df series))
  ∧ (NoDup series.*1 →
     timestamps (SynopticScraper.fuse_data df series) = timestamps df)
  ∧ ∃ written,
      SynopticScraper.json_written run = Some written
      ∧ synoptic_source written
        = Some {| station_id := stid;
                  station_name := SynopticScraper.NAME station;
                  distance_miles := SynopticScraper.DISTANCE station;
                  vars_fetched := ["solar_radiation"%string];
                  fetch_date := now;
                  units := u;
                  sensor_variables := sv |}
      ∧ details written = details metadata
      ∧ site_name written = site_name metadata
      ∧ site_id written = site_id metadata
      ∧ county_code written = county_code metadata
      ∧ params written = params metadata
      ∧ raw_file written = raw_file metadata
      ∧ cleaned_file written = cleaned_file metadata.
Proof.
  intros Htoken Hloc Hlat Hlon Hfound Hid Hrows Hrect Hfetch run. subst run.
  rewrite (main_with_station tzdb token df metadata lat lon stid station) by done.
  cbn zeta. rewrite Hfetch. cbn [SynopticScraper.exit_code SynopticScraper.calls
    SynopticScraper.csv_written SynopticScraper.json_written].
  split_and!.
  - done.
  - by rewrite fmap_app, find_nearest_station_endpoint, fetch_synoptic_data_endpoint.
  - done.
  - intros ->. by apply assign_none_all_missing.
  - apply fuse_data_timestamps.
  - eexists. by split_and!.
Qed.

(** X10 on the table, metadata and station of the examples. *)
Lemma main_fuses_witness :
  let run := SynopticScraper.main FusionFixture.tzdb (Some "token"%string)
               (Some (FusionFixture.table, FusionFixture.metadata))
               FusionFixture.lookup FusionFixture.timeseries "2026-01-01T00:00:00" in
  SynopticScraper.exit_code run = 0
  ∧ SynopticScraper.csv_written run
    = Some {| columns := ["O3"; "SR_Synoptic"]%string;
              rows := [(1604192400, [Some (3 # 100)%Q; Some 9%Q]);
                       (1604196000, [Some (4 # 100)%Q; None])] |}.
Proof.
  intros run.
  assert (Hfetch : (SynopticScraper.fetch_synoptic_data FusionFixture.tzdb
                      (SynopticScraper.TIMEZONE FusionFixture.station)
                      FusionFixture.timeseries).1
                   = SynopticScraper.Triple [(1604192400, Some 9%Q); (1604196000, None)]
                       "{solar_radiation: W/m**2}" "{}") by reflexivity.
  destruct (main_fuses FusionFixture.tzdb "token" FusionFixture.table
              FusionFixture.metadata (Scalar "40.73"%string) (Scalar "-111.87"%string)
              "WBB" FusionFixture.station FusionFixture.lookup FusionFixture.timeseries
              "2026-01-01T00:00:00" _ _ _
              ltac:(discriminate) eq_refl eq_refl eq_refl eq_refl
              ltac:(discriminate) ltac:(discriminate)
              ltac:(repeat constructor) Hfetch)
    as (Hexit & _ & Hcsv & _).
  split; [exact Hexit|exact Hcsv].
Defined.

(** X11.  When the time series endpoint answers without an error status
    and its answer holds no station, or a first station without the
    observation times or without the values, [fetch_synoptic_data] returns
    a bare frame where the caller unpacks three values: a run that has
    found a station then ends with exit status 1 after the two requests and
    writes neither the CSV nor the metadata. *)
Theorem main_fails_on_bare_frame {V} (tzdb : string → option (Z → Z))
    (token : string) (df : DataFrame) (metadata : Metadata V)
    (lat lon : collapsed V) (stid : string) (station : SynopticScraper.Station)
    (metadata_wire : wire (payload SynopticScraper.Station))
    (timeseries_wire : wire SynopticScraper.timeseries_payload) (now : string)
    (status : Z) (stations : option (list SynopticScraper.TimeseriesStation))
    (u : option string) :
  token ≠ ""%string →
  SynopticScraper.location (default [] (details metadata)) = Some (lat, lon) →
  SynopticScraper.is_null lat = false →
  SynopticScraper.is_null lon = false →
  (SynopticScraper.find_nearest_station metadata_wire).1 = Some (stid, station) →
  stid ≠ ""%string →
  rows df ≠ [] →
  (requests_get timeseries_wire).1 = Response status (SynopticScraper.TsObject stations u) →
  ¬ (400 ≤ status < 600) →
  match stations with
  | None | Some [] => True
  | Some (first :: _) =>
      match SynopticScraper.OBSERVATIONS first with
      | None => True
      | Some obs => SynopticScraper.date_time obs = None
                    ∨ SynopticScraper.solar_radiation_set_1 obs = None
      end
  end →
  let run := SynopticScraper.main tzdb (Some token) (Some (df, metadata))
               metadata_wire timeseries_wire now in
  SynopticScraper.exit_code run = 1
  ∧ SynopticScraper.csv_written run = None
  ∧ SynopticScraper.json_written run = None
  ∧ call_endpoint <$> SynopticScraper.calls run = [StationsMetadata; StationsTimeseries].
Proof.
  intros Htoken Hloc Hlat Hlon Hfound Hid Hrows Hanswer Hstatus Hbare run. subst run.
  rewrite (main_with_station tzdb token df metadata lat lon stid station) by done.
  cbn zeta.
  pose proof (fetch_synoptic_data_endpoint tzdb (SynopticScraper.TIMEZONE station)
                timeseries_wire) as Hend.
  assert (Hfetch : ∃ b, (SynopticScraper.fetch_synoptic_data tzdb
                           (SynopticScraper.TIMEZONE station) timeseries_wire).1
                        = SynopticScraper.Bare b).
  { unfold SynopticScraper.fetch_synoptic_data.
    destruct (requests_get timeseries_wire) as [o n]. cbn [fst] in Hanswer. subst o.
    unfold raise_for_status. rewrite bool_decide_eq_false_2 by done.
    destruct stations as [[|first rest]|]; [by eexists| |by eexists].
    destruct (SynopticScraper.OBSERVATIONS first) as [obs|]; cbn zeta;
      cbn [default from_option id SynopticScraper.date_time
           SynopticScraper.solar_radiation_set_1];
      [|by eexists].
    destruct Hbare as [-> | Hvalues]; [by eexists|].
    rewrite Hvalues. destruct (SynopticScraper.date_time obs); by eexists. }
  destruct Hfetch as [b Hfetch]. rewrite Hfetch.
  split_and!; [done..|].
  cbn [SynopticScraper.calls SynopticScraper.failed].
  by rewrite fmap_app, find_nearest_station_endpoint, Hend.
Qed.

(** X11 with a time series answer whose 'STATION' list is empty. *)
Lemma main_fails_on_bare_frame_witness :
  let run := SynopticScraper.main FusionFixture.tzdb (Some "token"%string)
               (Some (FusionFixture.table, FusionFixture.metadata))
               FusionFixture.lookup
               [Answer 200 (SynopticScraper.TsObject (Some []) None)]
               "2026-01-01T00:00:00" in
  SynopticScraper.exit_code run = 1
  ∧ SynopticScraper.csv_written run = None
  ∧ SynopticScraper.json_written run = None
  ∧ call_endpoint <$> SynopticScraper.calls run = [StationsMetadata; StationsTimeseries].
Proof.
  apply (main_fails_on_bare_frame FusionFixture.tzdb "token" FusionFixture.table
           FusionFixture.metadata (Scalar "40.73"%string) (Scalar "-111.87"%string)
           "WBB" FusionFixture.station FusionFixture.lookup
           [Answer 200 (SynopticScraper.TsObject (Some []) None)]
           "2026-01-01T00:00:00" 200 (Some []) None).
  - discriminate.
  - reflexivity.
  - reflexivity.
  - reflexivity.
  - reflexivity.
  - discriminate.
  - discriminate.
  - reflexivity.
  - lia.
  - exact I.
Defined.

Ltac outcome_cases :=
  cbn; split_and!;
  solve [ auto
        | discriminate
        | by eexists
        | by intros [? ?]
        | intros _; split; [by eexists|done]
        | intros Hfailure;
          match goal with Hconfig : ¬ _ |- _ => by destruct (Hconfig Hfailure) end ].


(** X13.  When the time series request of a run that has found a station
    fails (the client raises, or the answer has an error status), the run
    still exits with 0: it writes the table with an 'SR_Synoptic' column
    that is entirely missing, values fused by an earlier run included, on
    the same timestamps, and records the station in the metadata with
    empty units and sensor variables. *)
Theorem main_blanks_column_on_failed_fetch {V} (tzdb : string → option (Z → Z))
    (token : string) (df : DataFrame) (metadata : Metadata V)
    (lat lon : collapsed V) (stid : string) (station : SynopticScraper.Station)
    (metadata_wire : wire (payload SynopticScraper.Station))
    (timeseries_wire : wire SynopticScraper.timeseries_payload) (now : string) :
  token ≠ ""%string →
  SynopticScraper.location (default [] (details metadata)) = Some (lat, lon) →
  SynopticScraper.is_null lat = false →
  SynopticScraper.is_null lon = false →
  (SynopticScraper.find_nearest_station metadata_wire).1 = Some (stid, station) →
  stid ≠ ""%string →
  rows df ≠ [] →
  rectangular df →
  raise_for_status (requests_get timeseries_wire).1 = Raised →
  let run := SynopticScraper.main tzdb (Some token) (Some (df, metadata))
               metadata_wire timeseries_wire now in
  SynopticScraper.exit_code run = 0
  ∧ (∃ out, SynopticScraper.csv_written run = Some out
            ∧ all_missing "SR_Synoptic" out
            ∧ timestamps out = timestamps df)
  ∧ ∃ written, SynopticScraper.json_written run = Some written
               ∧ (station_id <$> synoptic_source written) = Some stid
               ∧ (units <$> synoptic_source written) = Some "{}"%string
               ∧ (sensor_variables <$> synoptic_source written) = Some "{}"%string.
Proof.
  intros Htoken Hloc Hlat Hlon Hfound Hid Hrows Hrect Hraised run. subst run.
  rewrite (main_with_station tzdb token df metadata lat lon stid station) by done.
  cbn zeta.
  assert (Hfetch : (SynopticScraper.fetch_synoptic_data tzdb
                      (SynopticScraper.TIMEZONE station) timeseries_wire).1
                   = SynopticScraper.Triple [] "{}" "{}").
  { unfold SynopticScraper.fetch_synoptic_data.
    destruct (requests_get timeseries_wire) as [o n]. cbn [fst] in Hraised.
    by rewrite Hraised. }
  rewrite Hfetch.
  split_and!; [done| |by eexists].
  eexists. split; [done|]. split.
  - by apply assign_none_all_missing.
  - apply fuse_data_timestamps. constructor.
Qed.

(** X13 on the table of the examples, whose 'SR_Synoptic' column holds
    412 and 380, with a time series endpoint that answers 503. *)
Lemma main_blanks_column_on_failed_fetch_witness :
  let run := SynopticScraper.main FusionFixture.tzdb (Some "token"%string)
               (Some (FusionFixture.table, FusionFixture.metadata))
               FusionFixture.lookup
               [Answer 503 SynopticScraper.TsNotJson] "2026-01-01T00:00:00" in
  SynopticScraper.csv_written run
  = Some {| columns := ["O3"; "SR_Synoptic"]%string;
            rows := [(1604192400, [Some (3 # 100)%Q; None]);
                     (1604196000, [Some (4 # 100)%Q; None])] |}
  ∧ SynopticScraper.exit_code run = 0.
Proof.
  intros run. split; [reflexivity|].
  apply (main_blanks_column_on_failed_fetch FusionFixture.tzdb "token"
           FusionFixture.table FusionFixture.metadata
           (Scalar "40.73"%string) (Scalar "-111.87"%string)
           "WBB" FusionFixture.station FusionFixture.lookup
           [Answer 503 SynopticScraper.TsNotJson] "2026-01-01T00:00:00").
  - discriminate.
  - reflexivity.
  - reflexivity.
  - reflexivity.
  - reflexivity.
  - discriminate.
  - discriminate.
  - repeat constructor.
  - reflexivity.
Defined.

(** ** The supplementary series *)

Lemma wall_clock_shift_NoDup (f : Z → Z) (k : Z) (instants : list Z) :
  (∀ t, f t = t + k) → NoDup instants → NoDup (map f instants).
Proof.
  intros Hf Hnd.
  induction Hnd as [|t ts Ht Hnd IH]; [constructor|].
  cbn [map]. constructor; [|done].
  intros (t' & Heq & Hin)%list_elem_of_fmap.
  rewrite !Hf in Heq. assert (t = t') by lia. by subst.
Qed.

(** X14.  From an answer without error status whose first station has as
    many observation times as values, [fetch_synoptic_data] returns one row
    per observation, in order: the wall-clock reading of the time with the
    value.  When the wall clock is at a fixed offset from UTC (no time
    zone, an unknown one, or a zone without a transition in the range) and
    no instant is reported twice, no timestamp of the series repeats, and
    fusing it into a table keeps the timestamps of the table. *)
Theorem fetch_synoptic_data_series (tzdb : string → option (Z → Z))
    (station_timezone : option string) (w : wire SynopticScraper.timeseries_payload)
    (status : Z) (first : SynopticScraper.TimeseriesStation)
    (rest : list SynopticScraper.TimeseriesStation) (u : option string)
    (obs : SynopticScraper.Observations) (instants : list Z)
    (values : list (option Q)) :
  (requests_get w).1
  = Response status (SynopticScraper.TsObject (Some (first :: rest)) u) →
  ¬ (400 ≤ status < 600) →
  SynopticScraper.OBSERVATIONS first = Some obs →
  SynopticScraper.date_time obs = Some instants →
  SynopticScraper.solar_radiation_set_1 obs = Some values →
  length instants = length values →
  ∃ series,
    (SynopticScraper.fetch_synoptic_data tzdb station_timezone w).1
    = SynopticScraper.Triple series (default "{}"%string u)
        (default "{}"%string (SynopticScraper.SENSOR_VARIABLES first))
    ∧ series.*1 = map (SynopticScraper.wall_clock tzdb station_timezone) instants
    ∧ series.*2 = values
    ∧ ((∃ k, ∀ t, SynopticScraper.wall_clock tzdb station_timezone t = t + k) →
       NoDup instants →
       NoDup series.*1
       ∧ ∀ C, timestamps (SynopticScraper.fuse_data C series) = timestamps C).
Proof.
  intros Hanswer Hstatus Hobs Htimes Hvalues Hlen.
  exists (zip (map (SynopticScraper.wall_clock tzdb station_timezone) instants) values).
  assert (Hfst : (zip (map (SynopticScraper.wall_clock tzdb station_timezone) instants)
                      values).*1
                 = map (SynopticScraper.wall_clock tzdb station_timezone) instants).
  { apply fst_zip. rewrite length_map. lia. }
  split_and!.
  - unfold SynopticScraper.fetch_synoptic_data.
    destruct (requests_get w) as [o n]. cbn [fst] in Hanswer. subst o.
    unfold raise_for_status. rewrite bool_decide_eq_false_2 by done.
    rewrite Hobs. cbn zeta. cbn [default from_option id].
    rewrite Htimes, Hvalues. by rewrite bool_decide_eq_true_2.
  - done.
  - apply snd_zip. rewrite length_map. lia.
  - intros [k Hk] Hnd. rewrite Hfst.
    assert (Hnd' : NoDup (map (SynopticScraper.wall_clock tzdb station_timezone) instants))
      by by apply (wall_clock_shift_NoDup _ k).
    split; [done|]. intros C. apply fuse_data_timestamps. by rewrite Hfst.
Qed.

(** X14 on the answer of the examples, in a zone seven hours behind UTC. *)
Lemma fetch_synoptic_data_series_witness :
  ∃ series,
    (SynopticScraper.fetch_synoptic_data FusionFixture.tzdb
       (Some "America/Denver"%string) FusionFixture.timeseries).1
    = SynopticScraper.Triple series "{solar_radiation: W/m**2}" "{}"
    ∧ series.*1 = [1604192400; 1604196000]
    ∧ series.*2 = [Some 9%Q; None]
    ∧ ((∃ k, ∀ t, SynopticScraper.wall_clock FusionFixture.tzdb
                    (Some "America/Denver"%string) t = t + k) →
       NoDup [1604217600; 1604221200] →
       NoDup series.*1
       ∧ ∀ C, timestamps (SynopticScraper.fuse_data C series) = timestamps C).
Proof.
  pose (obs := {| SynopticScraper.date_time := Some [1604217600; 1604221200];
                  SynopticScraper.solar_radiation_set_1 := Some [Some 9%Q; None] |}).
  apply (fetch_synoptic_data_series FusionFixture.tzdb (Some "America/Denver"%string)
           FusionFixture.timeseries 200
           {| SynopticScraper.OBSERVATIONS := Some obs;
              SynopticScraper.SENSOR_VARIABLES := None |}
           [] (Some "{solar_radiation: W/m**2}"%string) obs
           [1604217600; 1604221200] [Some 9%Q; None]).
  - reflexivity.
  - lia.
  - reflexivity.
  - reflexivity.
  - reflexivity.
  - reflexivity.
Defined.

(** ** Samples that agree *)

Lemma sum_of_equal (v : Q) (vs : list Q) :
  Forall (λ x, x == v)%Q vs →
  (foldr Qplus 0 vs == inject_Z (Z.of_nat (length vs)) * v)%Q.
Proof.
  induction 1 as [|x vs Hx Hvs IH].
  - cbn. ring.
  - cbn [foldr length]. rewrite IH, Hx, Nat2Z.inj_succ.
    unfold Z.succ. rewrite inject_Z_plus. ring.
Qed.

Lemma mean_of_equal (v : Q) (vs : list Q) :
  vs ≠ [] → Forall (λ x, x == v)%Q vs → (scraper.mean vs == v)%Q.
Proof.
  intros Hne Hall. unfold scraper.mean. rewrite (sum_of_equal v vs Hall).
  field. destruct vs as [|x vs]; [done|].
  cbn [length]. rewrite Nat2Z.inj_succ. unfold Z.succ.
  intros Hzero. unfold Qeq in Hzero. cbn in Hzero. lia.
Qed.

Section AgreeingSamples.

Context {V : Type} `{EqDecision V}.
Variable to_datetime : string → Z.


End AgreeingSamples.


(** ** From the metadata of the acquisition script to the location of the
    fusion script *)

Section Location.

Context {V : Type} `{EqDecision V}.

Lemma location_of_details (df : list (scraper.RawSample V))
    (before after : list (string * string)) (p_code p_name : string) :
  Forall (λ kv, filter (λ s, scraper.parameter_code s = kv.1) df = []) before →
  filter (λ s, scraper.parameter_code s = p_code) df ≠ [] →
  "latitude"%string ∈ scraper.candidates df →
  "longitude"%string ∈ scraper.candidates df →
  SynopticScraper.location
    (map (λ kv, (kv.2, scraper.channel_details df kv.1))
         (before ++ (p_code, p_name) :: after))
  = Some (scraper.collapse
            (scraper.unique_vals (filter (λ s, scraper.parameter_code s = p_code) df)
                                 "latitude"),
          scraper.collapse
            (scraper.unique_vals (filter (λ s, scraper.parameter_code s = p_code) df)
                                 "longitude")).
Proof.
  intros Hbefore Hsubset Hlat Hlon.
  induction Hbefore as [|[c n] before Hc Hbefore IH].
  - cbn [app map SynopticScraper.location fst snd].
    unfold scraper.channel_details at 1.
    destruct (filter _ df) as [|s0 subset] eqn:Hf; [done|].
    rewrite (dict_get_fmap (λ col, scraper.collapse
               (scraper.unique_vals (s0 :: subset) col))) by done.
    rewrite (dict_get_fmap (λ col, scraper.collapse
               (scraper.unique_vals (s0 :: subset) col))) by done.
    done.
  - cbn [app map SynopticScraper.location fst snd] in *.
    unfold scraper.channel_details at 1. by rewrite Hc.
Qed.

Lemma is_null_collapse (vals : list V) :
  SynopticScraper.is_null (scraper.collapse vals) = false ↔ vals ≠ [].
Proof. by destruct vals as [|v [|v' vals]]. Qed.

(** X16.  The location the fusion script reads from a metadata document
    that the acquisition script wrote for the records [df]: when some
    record has a 'latitude' key and some record a 'longitude' key, it is
    the pair of collapsed latitude and longitude of the first channel, in
    the order O3, NO, NO2, SR, Temp, that has a record; the latitude is
    not null exactly when a record of that channel carries a latitude. *)
Theorem location_of_written_metadata (df : list (scraper.RawSample V))
    (before after : list (string * string)) (p_code p_name : string) :
  scraper.PARAMS = before ++ (p_code, p_name) :: after →
  Forall (λ kv, filter (λ s, scraper.parameter_code s = kv.1) df = []) before →
  filter (λ s, scraper.parameter_code s = p_code) df ≠ [] →
  (∃ s, s ∈ df ∧ "latitude"%string ∈ (scraper.attributes s).*1) →
  (∃ s, s ∈ df ∧ "longitude"%string ∈ (scraper.attributes s).*1) →
  let subset := filter (λ s, scraper.parameter_code s = p_code) df in
  ∃ lat lon,
    SynopticScraper.location (scraper.parameter_details df) = Some (lat, lon)
    ∧ lat = scraper.collapse (scraper.unique_vals subset "latitude")
    ∧ lon = scraper.collapse (scraper.unique_vals subset "longitude")
    ∧ (SynopticScraper.is_null lat = false
       ↔ ∃ s v, s ∈ subset
                ∧ dict_get "latitude" (scraper.attributes s) = Some (Some v))
    ∧ (SynopticScraper.is_null lon = false
       ↔ ∃ s v, s ∈ subset
                ∧ dict_get "longitude" (scraper.attributes s) = Some (Some v)).
Proof.
  intros Hparams Hbefore Hsubset Hlat Hlon subset.
  assert (Hnull : ∀ col,
    SynopticScraper.is_null (scraper.collapse (scraper.unique_vals subset col)) = false
    ↔ ∃ s v, s ∈ subset ∧ dict_get col (scraper.attributes s) = Some (Some v)).
  { intros col. rewrite is_null_collapse. split.
    - intros Hne. destruct (scraper.unique_vals subset col) as [|v vs] eqn:Hvals; [done|].
      assert (Hv : v ∈ scraper.unique_vals subset col) by (rewrite Hvals; left).
      apply elem_of_unique_vals in Hv as (s & Hs & Hget). eauto.
    - intros (s & v & Hs & Hget) Hnil.
      assert (Hv : v ∈ scraper.unique_vals subset col)
        by (apply elem_of_unique_vals; eauto).
      rewrite Hnil in Hv. by apply not_elem_of_nil in Hv. }
  eexists _, _. split_and!; [|reflexivity|reflexivity|apply Hnull|apply Hnull].
  rewrite parameter_details_unfold.
  change [("O3"%string, scraper.channel_details df "44201");
          ("NO"%string, scraper.channel_details df "42601");
          ("NO2"%string, scraper.channel_details df "42602");
          ("SR"%string, scraper.channel_details df "63301");
          ("Temp"%string, scraper.channel_details df "62101")]
    with (map (λ kv : string * string, (kv.2, scraper.channel_details df kv.1))
              scraper.PARAMS).
  rewrite Hparams.
  apply location_of_details; [done|done| |].
  - apply elem_of_candidates. split; [|done].
    apply (bool_decide_unpack _). by vm_compute.
  - apply elem_of_candidates. split; [|done].
    apply (bool_decide_unpack _). by vm_compute.
Qed.

End Location.

(** X16 on records that have nitrogen dioxide samples only. *)
Lemma location_of_written_metadata_witness :
  let df := [Fixture.sample "42602" "2020-11-01" "01:00" (Some (12 # 1000)%Q)] in
  let subset := filter (λ s, scraper.parameter_code s = "42602"%string) df in
  ∃ lat lon,
    SynopticScraper.location (scraper.parameter_details df) = Some (lat, lon)
    ∧ lat = scraper.collapse (scraper.unique_vals subset "latitude")
    ∧ lon = scraper.collapse (scraper.unique_vals subset "longitude")
    ∧ (SynopticScraper.is_null lat = false
       ↔ ∃ s v, s ∈ subset
                ∧ dict_get "latitude" (scraper.attributes s) = Some (Some v))
    ∧ (SynopticScraper.is_null lon = false
       ↔ ∃ s v, s ∈ subset
                ∧ dict_get "longitude" (scraper.attributes s) = Some (Some v)).
Proof.
  intros df.
  apply (location_of_written_metadata df
           [("44201", "O3"); ("42601", "NO")]%string
           [("63301", "SR"); ("62101", "Temp")]%string "42602" "NO2").
  - reflexivity.
  - by repeat constructor.
  - discriminate.
  - eexists. split; [by left|]. apply (bool_decide_unpack _). by vm_compute.
  - eexists. split; [by left|]. apply (bool_decide_unpack _). by vm_compute.
Defined.

(** ** Fusing twice *)

Lemma drop_app {A} (p : string → bool) (cols cols' : list string) (xs ys : list A) :
  length xs = length cols →
  drop p (cols ++ cols') (xs ++ ys) = drop p cols xs ++ drop p cols' ys.
Proof.
  intros Hlen. unfold drop.
  rewrite zip_with_app by done. by rewrite filter_app, fmap_app.
Qed.

Lemma drop_kept {A} (p : string → bool) (cols : list string) (xs : list A) :
  Forall (λ c, p c = false) cols → length xs = length cols → drop p cols xs = xs.
Proof.
  intros Hkept. revert xs.
  induction Hkept as [|c cols Hc Hkept IH]; intros [|x xs] Hlen; try discriminate;
    [done|].
  injection Hlen as Hlen. unfold drop in *. cbn [zip zip_with].
  rewrite filter_cons. cbn [fst]. rewrite decide_True by done.
  cbn [fmap list_fmap snd]. by rewrite IH.
Qed.

Lemma kept_columns (p : string → bool) (cols : list string) :
  Forall (λ c, p c = false) (filter (λ c, p c = false) cols).
Proof. apply Forall_forall. by intros c [? _]%list_elem_of_filter. Qed.

Lemma at_most_one_match (right : list (Z * option Q)) (t : Z) :
  NoDup right.*1 →
  (length (filter (λ m : Z * option Q, m.1 = t) right) ≤ 1)%nat.
Proof.
  intros Hnd. induction right as [|m right IHr]; [simpl; lia|].
  apply NoDup_cons in Hnd as [Hm Hnd].
  rewrite filter_cons. destruct (decide (m.1 = t)) as [Heq|]; [|by apply IHr].
  destruct (filter _ right) as [|m' ms] eqn:Hf; [simpl; lia|].
  exfalso. apply Hm.
  assert (Hin : m' ∈ filter (λ m0 : Z * option Q, m0.1 = t) right)
    by (rewrite Hf; left).
  apply list_elem_of_filter in Hin as [Hm' Hin]. rewrite Heq, <- Hm'.
  by apply list_elem_of_fmap_2.
Qed.

Lemma merge_left_single (left : DataFrame) (name : string)
    (right : list (Z * option Q)) :
  NoDup right.*1 →
  rows (merge_left left name right)
  = map (λ r : Z * list (option Q),
           (r.1, r.2 ++ [mjoin (snd <$> head (filter (λ m : Z * option Q, m.1 = r.1)
                                                     right))]))
        (rows left).
Proof.
  intros Hnd. unfold merge_left. cbn [rows].
  induction (rows left) as [|r rs IH]; [done|].
  cbn [flat_map]. rewrite IH. clear IH.
  pose proof (at_most_one_match right r.1 Hnd) as Hone.
  cbn [map].
  destruct (filter _ right) as [|m [|m' ms]]; [reflexivity|reflexivity|].
  cbn [length] in Hone. lia.
Qed.

Lemma drop_singleton_dropped {A} (p : string → bool) (name : string) (x : A) :
  p name = true → drop p [name] [x] = [].
Proof.
  intros Hp. unfold drop. cbn [zip zip_with].
  rewrite filter_cons. cbn [fst]. by rewrite decide_False by congruence.
Qed.

(** Merging a column whose name is dropped and dropping again gives the
    frame back. *)
Lemma drop_merged (p : string → bool) (D : DataFrame) (name : string)
    (right : list (Z * option Q)) :
  NoDup right.*1 → rectangular D →
  Forall (λ c, p c = false) (columns D) → p name = true →
  drop_columns p (merge_left D name right) = D.
Proof.
  intros Hnd Hrect Hkept Hp. destruct D as [dc dr].
  unfold rectangular in Hrect. cbn [columns rows] in *.
  unfold drop_columns. rewrite merge_left_single by done.
  cbn [columns rows merge_left]. f_equal.
  - rewrite drop_app by done.
    by rewrite drop_kept, drop_singleton_dropped, app_nil_r.
  - change (map ?f ?l) with (f <$> l). rewrite <- list_fmap_compose.
    rewrite <- (list_fmap_id dr) at 2.
    apply list_fmap_ext. intros i [t cells] Hi. cbn [compose fst snd id].
    f_equal.
    assert (Hlen : length cells = length dc).
    { rewrite Forall_forall in Hrect. apply (Hrect (t, cells)).
      by eapply list_elem_of_lookup_2. }
    rewrite drop_app by done.
    by rewrite drop_kept, drop_singleton_dropped, app_nil_r.
Qed.

Lemma drop_columns_fused (C : DataFrame) (S : SynopticScraper.Series) :
  NoDup S.*1 → rectangular C →
  drop_columns (SynopticScraper.contains "SR_Synoptic")
    (merge_left (drop_columns (SynopticScraper.contains "SR_Synoptic") C)
       "SR_Synoptic" S)
  = drop_columns (SynopticScraper.contains "SR_Synoptic") C.
Proof.
  intros Hnd Hrect. apply drop_merged.
  - done.
  - by apply rectangular_drop_columns.
  - cbn [columns drop_columns]. rewrite drop_self. apply kept_columns.
  - apply contains_refl.
Qed.

Lemma assign_none_idempotent (name : string) (df : DataFrame) :
  rectangular df →
  assign_none name (assign_none name df) = assign_none name df.
Proof.
  intros Hrect. unfold assign_none at 2.
  destruct (list_find (λ c, c = name) (columns df)) as [[i c]|] eqn:Hfind.
  - unfold assign_none. cbn [columns rows]. rewrite Hfind. f_equal.
    change (map ?f ?l) with (f <$> l). rewrite <- list_fmap_compose.
    apply list_fmap_ext. intros j [t cells] _. cbn.
    by rewrite list_insert_insert_eq.
  - assert (Hfresh : name ∉ columns df).
    { apply list_find_None in Hfind. rewrite Forall_forall in Hfind.
      intros Hin. by apply (Hfind name Hin). }
    unfold assign_none. cbn [columns rows]. rewrite list_find_fresh, Hfind by done.
    f_equal. change (map ?f ?l) with (f <$> l). rewrite <- list_fmap_compose.
    apply list_fmap_ext. intros j [t cells] Hj. cbn. f_equal.
    unfold rectangular in Hrect. rewrite Forall_forall in Hrect.
    assert (Hlen : length cells = length (columns df)).
    { apply (Hrect (t, cells)). by eapply list_elem_of_lookup_2. }
    apply list_insert_id. rewrite <- Hlen. apply list_lookup_middle. done.
Qed.

(** X17.  Fusing the same supplementary series twice gives what fusing it
    once gives, when no timestamp occurs twice in the series: the second
    run drops the column the first one added and merges the same values
    again, so no column is added and no row. *)
Theorem fuse_data_idempotent (C : DataFrame) (S : SynopticScraper.Series) :
  NoDup S.*1 → rectangular C →
  SynopticScraper.fuse_data (SynopticScraper.fuse_data C S) S
  = SynopticScraper.fuse_data C S.
Proof.
  intros Hnd Hrect. unfold SynopticScraper.fuse_data.
  destruct S as [|s S].
  - by apply assign_none_idempotent.
  - by rewrite drop_columns_fused.
Qed.

(** X17 on the table of the examples and a series of two observations. *)
Lemma fuse_data_idempotent_witness :
  let S := [(1604196000, Some 9%Q); (1604199600, Some 2%Q)] in
  SynopticScraper.fuse_data (SynopticScraper.fuse_data FusionFixture.table S) S
  = SynopticScraper.fuse_data FusionFixture.table S.
Proof.
  intros S. apply (fuse_data_idempotent FusionFixture.table S).
  - apply (bool_decide_unpack _). by vm_compute.
  - repeat constructor.
Defined.
